(** * YouTube-AI-Scraper: URL resolution and comment aggregation

    A shallow embedding of [main.py]: the URL resolver
    [resolve_channel_id], the three channel identity lookups, the
    comment aggregation [fetch_comments], the two text annotation
    wrappers and the Flask view [index].

    Python values are modelled by the JSON-like universe [pyval];
    a [str] is a list of Unicode code points; the external services
    (the YouTube Data API client and the two Hugging Face pipelines)
    are an oracle [World] that answers each request with a value or
    with an exception; [print] and the external calls are recorded in
    a trace that every function threads.

    Exceptions are the subclasses of [Exception], the ones the handlers
    of [main.py] catch; [print] itself is taken to succeed. *)

From Stdlib Require Import Ascii String.
From Stdlib Require Import List NArith ZArith Bool Lia.
Import ListNotations.

Set Implicit Arguments.

(* ================================================================= *)
(** ** Python strings *)

Module PyStr.

(** A Python [str]: a sequence of code points. *)
Definition char := N.
Definition str := list char.

(** ASCII literals of the source. *)
Definition py (s : string) : str := map N_of_ascii (list_ascii_of_string s).

Definition char_eqb (a b : char) : bool := N.eqb a b.

Fixpoint str_eqb (a b : str) : bool :=
  match a, b with
  | [], [] => true
  | x :: a', y :: b' => char_eqb x y && str_eqb a' b'
  | _, _ => false
  end.

(** [s.startswith(p)] *)
Fixpoint startswith (p s : str) : bool :=
  match p, s with
  | [], _ => true
  | _ :: _, [] => false
  | x :: p', y :: s' => char_eqb x y && startswith p' s'
  end.

(** [sub in s] *)
Fixpoint contains (sub s : str) : bool :=
  startswith sub s ||
  match s with
  | [] => false
  | _ :: s' => contains sub s'
  end.

(** [s.partition(sep)] restricted to the found case: the text before the
    leftmost occurrence of [sep] and the text after it; [None] when
    [sep] does not occur. *)
Fixpoint partition (sep s : str) : option (str * str) :=
  if startswith sep s then Some ([], skipn (length sep) s)
  else
    match s with
    | [] => None
    | c :: s' =>
        match partition sep s' with
        | Some (a, b) => Some (c :: a, b)
        | None => None
        end
    end.

(** [s.split(sep)] for a non-empty [sep]: cut at the leftmost occurrence,
    go on after it.  Each cut consumes at least one character, so
    [length s] rounds are enough (lemma [split_eq]). *)
Fixpoint split_fuel (n : nat) (sep s : str) : list str :=
  match n with
  | O => [s]
  | S n' =>
      match partition sep s with
      | None => [s]
      | Some (a, b) => a :: split_fuel n' sep b
      end
  end.

Definition split (sep s : str) : list str := split_fuel (length s) sep s.

(** [l[-1]] and [l[0]] on the list a split returns (never empty). *)
Definition last_piece (l : list str) : str := last l [].
Definition first_piece (l : list str) : str := hd [] l.

(** [str.isspace] on one code point (CPython's [_PyUnicode_IsWhitespace]). *)
Definition is_space (c : char) : bool :=
  ((9 <=? c) && (c <=? 13) || (28 <=? c) && (c <=? 32)
   || (c =? 133) || (c =? 160) || (c =? 5760)
   || (8192 <=? c) && (c <=? 8202)
   || (c =? 8232) || (c =? 8233) || (c =? 8239) || (c =? 8287)
   || (c =? 12288))%N.

Fixpoint lstrip (s : str) : str :=
  match s with
  | [] => []
  | c :: s' => if is_space c then lstrip s' else s
  end.

Definition rstrip (s : str) : str := rev (lstrip (rev s)).

(** [s.strip()] *)
Definition strip (s : str) : str := rstrip (lstrip s).

End PyStr.
Export PyStr.

(* ================================================================= *)
(** ** Python values, exceptions and the effect monad *)

Module Py.

(** The values that flow through the pipeline: what a decoded JSON
    response or a pipeline result can hold.  A [PFloat] carries its
    IEEE-754 binary64 bit pattern.  A [PDict] keeps its bindings in
    insertion order; keys are strings and subscripting takes the first
    binding of the key. *)
#[warnings="-register-all"] Inductive pyval : Type :=
| PNone
| PBool (b : bool)
| PInt (z : Z)
| PFloat (bits : Z)
| PStr (s : str)
| PList (l : list pyval)
| PDict (d : list (str * pyval)).

(** The exceptions of the model, all of them subclasses of [Exception]
    (the only ones [except Exception] catches).  [ExternalError] stands
    for whatever an external client raises (an HTTP error, a model
    failure), with its message. *)
Inductive exn : Type :=
| KeyError (key : pyval)
| IndexError
| TypeError
| ValueError (msg : str)
| ExternalError (msg : str).

Inductive outcome (A : Type) : Type :=
| Return (a : A)
| Raise (e : exn).
Arguments Raise {A} e.

(** A request to an external collaborator. *)
Inductive request : Type :=
| YouTubeList (resource : str) (kwargs : list (str * pyval))
    (* youtube.<resource>().list(kwargs...).execute() *)
| Summarizer (text : pyval) (kwargs : list (str * pyval))
    (* summarizer(text, kwargs...) *)
| SentimentAnalyzer (text : pyval).
    (* sentiment_analyzer(text) *)

(** What a run leaves behind: the external calls it made and the lines
    it printed, oldest first.  [Log prefix e] is
    [print(f"<prefix>{e}")]. *)
Inductive event : Type :=
| Called (r : request)
| Printed (line : str)
| Log (prefix : str) (e : exn).

Definition trace := list event.

(** The external world: the answer to a request, which may depend on
    everything that happened before. *)
Definition World := trace -> request -> outcome pyval.

Definition M (A : Type) : Type := trace -> outcome A * trace.

Definition ret {A} (a : A) : M A := fun tr => (Return a, tr).

Definition raise {A} (e : exn) : M A := fun tr => (Raise e, tr).

Definition bind {A B} (m : M A) (k : A -> M B) : M B :=
  fun tr =>
    match m tr with
    | (Return a, tr') => k a tr'
    | (Raise e, tr') => (Raise e, tr')
    end.

(** [try: m  except Exception as e: h e] *)
Definition try_except {A} (m : M A) (h : exn -> M A) : M A :=
  fun tr =>
    match m tr with
    | (Return a, tr') => (Return a, tr')
    | (Raise e, tr') => h e tr'
    end.

Definition lift {A} (o : outcome A) : M A := fun tr => (o, tr).

(** Sequencing of steps that touch neither the world nor the log. *)
Definition and_then {A B} (o : outcome A) (k : A -> outcome B) : outcome B :=
  match o with
  | Return a => k a
  | Raise e => Raise e
  end.

Definition emit (ev : event) : M unit := fun tr => (Return tt, tr ++ [ev]).

Definition call (w : World) (r : request) : M pyval :=
  fun tr => (w tr r, tr ++ [Called r]).

Definition print (line : str) : M unit := emit (Printed line).
Definition print_exn (prefix : str) (e : exn) : M unit := emit (Log prefix e).

(** [bool(v)], the test of [if v:]. *)
Definition truthy (v : pyval) : bool :=
  match v with
  | PNone => false
  | PBool b => b
  | PInt z => negb (Z.eqb z 0)
  | PFloat bits => negb (Z.eqb (Z.land bits (2 ^ 63 - 1)) 0)
  | PStr s => negb (Nat.eqb (length s) 0)
  | PList l => negb (Nat.eqb (length l) 0)
  | PDict d => negb (Nat.eqb (length d) 0)
  end.

Fixpoint dict_get (d : list (str * pyval)) (k : str) : option pyval :=
  match d with
  | [] => None
  | (k', v) :: d' => if str_eqb k' k then Some v else dict_get d' k
  end.

Definition dict_keys (d : list (str * pyval)) : list str := map fst d.

(** [v[k]] for a string key [k]. *)
Definition getitem (v : pyval) (k : str) : outcome pyval :=
  match v with
  | PDict d =>
      match dict_get d k with
      | Some x => Return x
      | None => Raise (KeyError (PStr k))
      end
  | _ => Raise TypeError
  end.

(** [l[i]] with Python's negative indices. *)
Definition seq_index {A} (l : list A) (i : Z) : option A :=
  let n := Z.of_nat (length l) in
  let j := if (i <? 0)%Z then (i + n)%Z else i in
  if ((0 <=? j) && (j <? n))%Z then nth_error l (Z.to_nat j) else None.

(** [v[i]] for an integer index [i]. *)
Definition getindex (v : pyval) (i : Z) : outcome pyval :=
  match v with
  | PList l =>
      match seq_index l i with
      | Some x => Return x
      | None => Raise IndexError
      end
  | PStr s =>
      match seq_index s i with
      | Some c => Return (PStr [c])
      | None => Raise IndexError
      end
  | PDict _ => Raise (KeyError (PInt i))
  | _ => Raise TypeError
  end.

(** The elements a [for x in v:] loop visits. *)
Definition iterate (v : pyval) : outcome (list pyval) :=
  match v with
  | PList l => Return l
  | PStr s => Return (map (fun c => PStr [c]) s)
  | PDict d => Return (map PStr (dict_keys d))
  | _ => Raise TypeError
  end.

End Py.
Export Py.

Declare Scope py_scope.
Delimit Scope py_scope with py.
Notation "x <- m ;; k" := (bind m (fun x => k))
  (at level 61, m at next level, right associativity) : py_scope.
Notation "m ;;; k" := (bind m (fun _ => k))
  (at level 61, right associativity) : py_scope.
Open Scope py_scope.

(* ================================================================= *)
(** ** main.py *)

Module Main.

(** [v["k"]] and [v[i]] as steps of a function body. *)
Definition subscript (v : pyval) (k : string) : M pyval := lift (getitem v (py k)).
Definition subscript_int (v : pyval) (i : Z) : M pyval := lift (getindex v i).

(** A dict display of the source, keys being literals. *)
Definition dict (d : list (string * pyval)) : pyval :=
  PDict (map (fun kv => (py (fst kv), snd kv)) d).

(** A function body that may [return] early: [Some v] is [return v],
    [None] is falling off the end of the block. *)
Definition returned_or (body : M (option pyval)) (rest : M pyval) : M pyval :=
  r <- body ;;
  match r with
  | Some v => ret v
  | None => rest
  end.

(** The requests the functions build. *)
Definition videos_request (video_id : pyval) : request :=
  YouTubeList (py "videos") [(py "part", PStr (py "snippet")); (py "id", video_id)].

Definition username_request (username : pyval) : request :=
  YouTubeList (py "channels") [(py "part", PStr (py "id")); (py "forUsername", username)].

Definition handle_request (handle : str) : request :=
  YouTubeList (py "search")
    [(py "part", PStr (py "snippet")); (py "type", PStr (py "channel"));
     (py "q", PStr (py "@" ++ handle)); (py "maxResults", PInt 1)].

Definition comment_threads_request (video_id : pyval) (max_results : Z) : request :=
  YouTubeList (py "commentThreads")
    [(py "part", PStr (py "snippet")); (py "videoId", video_id);
     (py "maxResults", PInt max_results)].

Definition summarizer_request (text : pyval) : request :=
  Summarizer text
    [(py "max_length", PInt 50); (py "min_length", PInt 25);
     (py "do_sample", PBool false)].

(** The path [comment["snippet"]["topLevelComment"]["snippet"][field]]. *)
Definition top_level_field (comment : pyval) (field : string) : outcome pyval :=
  and_then (getitem comment (py "snippet")) (fun a =>
  and_then (getitem a (py "topLevelComment")) (fun b =>
  and_then (getitem b (py "snippet")) (fun c =>
  getitem c (py field)))).

(** The record [fetch_comments] appends for one comment. *)
Definition comment_record (author text summarized_comment sentiment : pyval) : pyval :=
  dict [("author", author); ("text", text);
        ("summarized_comment", summarized_comment); ("sentiment", sentiment)]%string.

(** The record appended when the response has no items. *)
Definition no_comments_record : pyval :=
  dict [("author", PStr (py "No comments"));
        ("text", PStr (py "No comments available."))]%string.

(** What the view hands to Flask: the call [render_template(name,
    context...)] it ends with.  Loading and rendering the template, and
    what can fail there, are Flask's and stay outside the model. *)
Record rendering : Type := render_template {
  template : str;
  context : list (str * pyval)
}.

(** [request.form[k]], raising when the field is missing. *)
Fixpoint form_get (form : list (str * str)) (k : str) : outcome str :=
  match form with
  | [] => Raise (KeyError (PStr k))
  | (k', v) :: form' => if str_eqb k' k then Return v else form_get form' k
  end.

Section Program.

Variable world : World.

(** [get_channel_from_video(video_id)] *)
Definition get_channel_from_video (video_id : pyval) : M pyval :=
  returned_or
    (try_except
       (response <- call world (videos_request video_id) ;;
        items <- subscript response "items" ;;
        if truthy items then
          items <- subscript response "items" ;;
          first <- subscript_int items 0 ;;
          snippet <- subscript first "snippet" ;;
          channel_id <- subscript snippet "channelId" ;;
          ret (Some channel_id)
        else ret None)
       (fun e =>
          print_exn (py "Error fetching channel ID from video: ") e ;;;
          ret None))
    (ret PNone).

(** [get_channel_from_username(username)] *)
Definition get_channel_from_username (username : pyval) : M pyval :=
  returned_or
    (try_except
       (response <- call world (username_request username) ;;
        items <- subscript response "items" ;;
        if truthy items then
          items <- subscript response "items" ;;
          first <- subscript_int items 0 ;;
          id <- subscript first "id" ;;
          ret (Some id)
        else ret None)
       (fun e =>
          print_exn (py "Error fetching channel ID from username: ") e ;;;
          ret None))
    (ret PNone).

(** [get_channel_from_handle(handle)]; the query is [f"@{handle}"]. *)
Definition get_channel_from_handle (handle : str) : M pyval :=
  returned_or
    (try_except
       (response <- call world (handle_request handle) ;;
        items <- subscript response "items" ;;
        if truthy items then
          items <- subscript response "items" ;;
          first <- subscript_int items 0 ;;
          snippet <- subscript first "snippet" ;;
          channel_id <- subscript snippet "channelId" ;;
          ret (Some channel_id)
        else ret None)
       (fun e =>
          print_exn (py "Error fetching channel ID from handle: ") e ;;;
          ret None))
    (ret PNone).

(** The key each branch of [resolve_channel_id] cuts out of the URL. *)
Definition video_key (url : str) : str :=
  first_piece (split (py "&") (last_piece (split (py "v=") url))).
Definition channel_key (url : str) : str :=
  strip (last_piece (split (py "/channel/") url)).
Definition user_key (url : str) : str :=
  strip (last_piece (split (py "/user/") url)).
Definition handle_key (url : str) : str :=
  strip (last_piece (split (py "@") url)).

(** [resolve_channel_id(url)] *)
Definition resolve_channel_id (url : str) : M pyval :=
  try_except
    (if contains (py "youtube.com/watch?v=") url then
       let video_id := video_key url in
       get_channel_from_video (PStr video_id)
     else if contains (py "youtube.com/channel/") url then
       ret (PStr (channel_key url))
     else if contains (py "youtube.com/user/") url then
       let username := user_key url in
       get_channel_from_username (PStr username)
     else if contains (py "youtube.com/@") url then
       let handle := handle_key url in
       get_channel_from_handle handle
     else raise (ValueError (py "Invalid YouTube URL format.")))
    (fun e =>
       print_exn (py "Error resolving channel ID: ") e ;;;
       ret PNone).

(** [summarize_text(text)] *)
Definition summarize_text (text : pyval) : M pyval :=
  try_except
    (summary <- call world (summarizer_request text) ;;
     first <- subscript_int summary 0 ;;
     subscript first "summary_text")
    (fun e =>
       print_exn (py "Error during summarization: ") e ;;;
       ret PNone).

(** [analyze_sentiment(text)] *)
Definition analyze_sentiment (text : pyval) : M pyval :=
  try_except
    (sentiment <- call world (SentimentAnalyzer text) ;;
     subscript_int sentiment 0)
    (fun e =>
       print_exn (py "Error during sentiment analysis: ") e ;;;
       ret PNone).

(** The [for comment in response["items"]:] loop, [comments_data] being
    the list it appends to. *)
Fixpoint comments_loop (items : list pyval) (comments_data : list pyval)
  : M (list pyval) :=
  match items with
  | [] => ret comments_data
  | comment :: rest =>
      author <- lift (top_level_field comment "authorDisplayName") ;;
      text <- lift (top_level_field comment "textDisplay") ;;
      summarized_comment <- summarize_text text ;;
      sentiment <- analyze_sentiment text ;;
      comments_loop rest
        (comments_data ++ [comment_record author text summarized_comment sentiment])
  end.

(** [fetch_comments(video_id)] *)
Definition fetch_comments (video_id : pyval) : M pyval :=
  try_except
    (response <- call world (comment_threads_request video_id 5) ;;
     let comments_data := [] in
     items <- subscript response "items" ;;
     comments_data <-
       (if truthy items then
          items <- subscript response "items" ;;
          elements <- lift (iterate items) ;;
          comments_loop elements comments_data
        else ret (comments_data ++ [no_comments_record])) ;;
     ret (PList comments_data))
    (fun e =>
       print_exn (py "Error fetching comments: ") e ;;;
       ret (PList [])).

(** [fetch_channel_data(channel_id)] *)
Definition fetch_channel_data (channel_id : pyval) : M pyval :=
  try_except
    (response <- call world (YouTubeList (py "channels")
                   [(py "part", PStr (py "snippet,statistics")); (py "id", channel_id)]) ;;
     items <- subscript response "items" ;;
     if truthy items then
       items <- subscript response "items" ;;
       channel <- subscript_int items 0 ;;
       snippet <- subscript channel "snippet" ;;
       title <- subscript snippet "title" ;;
       snippet <- subscript channel "snippet" ;;
       description <- subscript snippet "description" ;;
       statistics <- subscript channel "statistics" ;;
       subscribers <- subscript statistics "subscriberCount" ;;
       statistics <- subscript channel "statistics" ;;
       views <- subscript statistics "viewCount" ;;
       ret (dict [("title", title); ("description", description);
                  ("subscribers", subscribers); ("views", views)]%string)
     else
       print (py "Channel not found.") ;;;
       ret PNone)
    (fun e =>
       print_exn (py "Error fetching channel data: ") e ;;;
       ret PNone).

(** [fetch_latest_video_details(channel_id)] *)
Definition fetch_latest_video_details (channel_id : pyval) : M pyval :=
  try_except
    (response <- call world (YouTubeList (py "search")
                   [(py "part", PStr (py "snippet")); (py "channelId", channel_id);
                    (py "order", PStr (py "date")); (py "maxResults", PInt 1)]) ;;
     items <- subscript response "items" ;;
     if truthy items then
       items <- subscript response "items" ;;
       video <- subscript_int items 0 ;;
       id <- subscript video "id" ;;
       video_id <- subscript id "videoId" ;;
       snippet <- subscript video "snippet" ;;
       title <- subscript snippet "title" ;;
       snippet <- subscript video "snippet" ;;
       description <- subscript snippet "description" ;;
       snippet <- subscript video "snippet" ;;
       published_at <- subscript snippet "publishedAt" ;;
       summarized_description <- summarize_text description ;;
       sentiment <- analyze_sentiment description ;;
       comments <- fetch_comments video_id ;;
       ret (dict [("video_id", video_id); ("title", title);
                  ("description", description); ("published_at", published_at);
                  ("summarized_description", summarized_description);
                  ("sentiment", sentiment); ("comments", comments)]%string)
     else
       print (py "No videos found for this channel.") ;;;
       ret PNone)
    (fun e =>
       print_exn (py "Error fetching latest video details: ") e ;;;
       ret PNone).

(** [index()], the request being its method and its form fields. *)
Definition index (method : str) (form : list (str * str)) : M rendering :=
  if str_eqb method (py "POST") then
    url <- lift (form_get form (py "url")) ;;
    channel_id <- resolve_channel_id url ;;
    if truthy channel_id then
      channel_data <- fetch_channel_data channel_id ;;
      video_data <- fetch_latest_video_details channel_id ;;
      ret (render_template (py "result.html")
             [(py "channel_data", channel_data); (py "video_data", video_data)])
    else
      ret (render_template (py "index.html")
             [(py "error", PStr (py "Invalid YouTube URL"))])
  else ret (render_template (py "index.html") []).

End Program.

End Main.
Export Main.

(* ================================================================= *)
(** ** Vocabulary of the properties *)

Module Props.

(** A computation that lets no exception escape. *)
Definition never_raises {A} (m : M A) : Prop :=
  forall tr, exists a tr', m tr = (Return a, tr').

(** A computation that only appends to the trace. *)
Definition appends_only {A} (m : M A) : Prop :=
  forall tr o tr', m tr = (o, tr') -> exists later, tr' = tr ++ later.

(** The four markers [resolve_channel_id] looks for. *)
Definition watch_marker : str := py "youtube.com/watch?v=".
Definition channel_marker : str := py "youtube.com/channel/".
Definition user_marker : str := py "youtube.com/user/".
Definition handle_marker : str := py "youtube.com/@".

(** [t] is [s] without its leading and trailing whitespace. *)
Definition trimmed_of (s t : str) : Prop :=
  (exists l r, s = l ++ t ++ r
               /\ forallb is_space l = true /\ forallb is_space r = true)
  /\ (forall c, hd_error t = Some c -> is_space c = false)
  /\ (forall c, hd_error (rev t) = Some c -> is_space c = false).

(** A lookup collapses to [None] at trace [tr]: it never raises, and it
    returns [None] both when its request raises and when the response
    has an empty [items] list. *)
Definition not_found_on (w : World) (tr : trace) (req : request)
  (lookup : M pyval) : Prop :=
  (exists v tr', lookup tr = (Return v, tr'))
  /\ (forall e, w tr req = Raise e -> fst (lookup tr) = Return PNone)
  /\ (forall resp, w tr req = Return resp ->
        getitem resp (py "items") = Return (PList []) ->
        fst (lookup tr) = Return PNone).

(** A comment thread resource from which the loop can read both fields. *)
Definition readable_thread (comment : pyval) : Prop :=
  exists author text,
    top_level_field comment "authorDisplayName" = Return author
    /\ top_level_field comment "textDisplay" = Return text.

(** [rec] is the record built from [comment]: its author and its text,
    with what the two annotations returned for the text when they ran. *)
Definition record_for (w : World) (comment rec : pyval) : Prop :=
  exists author text summarized_comment sentiment tr1 tr2,
    top_level_field comment "authorDisplayName" = Return author
    /\ top_level_field comment "textDisplay" = Return text
    /\ fst (summarize_text w text tr1) = Return summarized_comment
    /\ fst (analyze_sentiment w text tr2) = Return sentiment
    /\ rec = comment_record author text summarized_comment sentiment.

(** The value of a step, [None] standing for its failure. *)
Definition value_or_none (o : outcome pyval) : pyval :=
  match o with
  | Return v => v
  | Raise _ => PNone
  end.

(** The unwrapping of the two pipeline results. *)
Definition summary_text_of (summary : pyval) : outcome pyval :=
  and_then (getindex summary 0) (fun first => getitem first (py "summary_text")).
Definition first_label_of (sentiment : pyval) : outcome pyval :=
  getindex sentiment 0.

Definition record_keys : list str :=
  [py "author"; py "text"; py "summarized_comment"; py "sentiment"].

(** The platform holds [threads] for the video and answers a comment
    thread query with the first [maxResults] of them, in its order. *)
Definition platform_serves (w : World) (video_id : pyval)
  (threads : list pyval) : Prop :=
  forall tr (n : nat), exists resp,
    w tr (comment_threads_request video_id (Z.of_nat n)) = Return resp
    /\ getitem resp (py "items") = Return (PList (firstn n threads)).

(** The keys of a record. *)
Definition keys_of (v : pyval) : list str :=
  match v with
  | PDict d => dict_keys d
  | _ => []
  end.

End Props.
Export Props.

(* ================================================================= *)
(** ** Concrete worlds and inputs *)

Module Samples.

(** Every external call fails. *)
Definition world_down : World :=
  fun _ _ => Raise (ExternalError (py "quota exceeded")).

(** Every query answers with an empty result set. *)
Definition world_empty : World :=
  fun _ _ => Return (dict [("items", PList [])]%string).

Definition thread (author text : string) : pyval :=
  dict [("snippet",
         dict [("topLevelComment",
                dict [("snippet",
                       dict [("authorDisplayName", PStr (py author));
                             ("textDisplay", PStr (py text))])])])]%string.

Definition seven_threads : list pyval :=
  [thread "ann" "one"; thread "bob" "two"; thread "cyd" "three";
   thread "dan" "four"; thread "eve" "five"; thread "fay" "six";
   thread "gus" "seven"]%string.

Definition max_results_of (kwargs : list (str * pyval)) : nat :=
  match dict_get kwargs (py "maxResults") with
  | Some (PInt z) => Z.to_nat z
  | _ => 0
  end.

(** A platform holding [threads] for every video, with a summarizer
    that fails on every text and a sentiment model that answers. *)
Definition world_with (threads : list pyval) : World :=
  fun _ r =>
    match r with
    | YouTubeList _ kwargs =>
        Return (dict [("items", PList (firstn (max_results_of kwargs) threads))]%string)
    | Summarizer _ _ => Raise (ExternalError (py "input too short"))
    | SentimentAnalyzer _ =>
        Return (PList [dict [("label", PStr (py "POSITIVE"));
                             ("score", PFloat 4607182418800017408)]%string])
    end.

Definition two_threads : list pyval := [thread "ann" "one"; thread "bob" "two"]%string.

Definition url_two_v : str := py "https://www.youtube.com/watch?v=ABC&rv=DEF".
Definition url_both : str :=
  py "https://www.youtube.com/watch?v=ABC&next=youtube.com/channel/UC9".
Definition url_channel : str := py "https://www.youtube.com/channel/UC123 ".
Definition url_other : str := py "not-a-youtube-url".

End Samples.
Export Samples.

(* ================================================================= *)
(** ** Vocabulary of the profile, video and trace properties *)

Module Shapes.

(** The external calls recorded in a trace, oldest first. *)
Definition calls (tr : trace) : list request :=
  flat_map (fun ev => match ev with Called r => [r] | _ => [] end) tr.

(** The requests of [fetch_channel_data] and [fetch_latest_video_details]. *)
Definition channel_request (channel_id : pyval) : request :=
  YouTubeList (py "channels")
    [(py "part", PStr (py "snippet,statistics")); (py "id", channel_id)].

Definition latest_request (channel_id : pyval) : request :=
  YouTubeList (py "search")
    [(py "part", PStr (py "snippet")); (py "channelId", channel_id);
     (py "order", PStr (py "date")); (py "maxResults", PInt 1)].

(** The keys of the two records, in the order of the dict displays. *)
Definition profile_keys : list str :=
  [py "title"; py "description"; py "subscribers"; py "views"].

Definition video_keys : list str :=
  [py "video_id"; py "title"; py "description"; py "published_at";
   py "summarized_description"; py "sentiment"; py "comments"].

(** A lookup at trace [tr] sends [req] once and nothing else: it ends
    with the call alone in the trace, or with the call and one
    diagnostic line, and then it returns [None]. *)
Definition calls_once (tr : trace) (req : request) (prefix : str)
  (lookup : M pyval) : Prop :=
  (exists v, lookup tr = (Return v, tr ++ [Called req]))
  \/ (exists e, lookup tr = (Return PNone, tr ++ [Called req; Log prefix e])).

(** The two pipeline calls the loop makes for one comment thread. *)
Definition annotation_requests (comment : pyval) : list request :=
  match top_level_field comment "textDisplay" with
  | Return text => [summarizer_request text; SentimentAnalyzer text]
  | Raise _ => []
  end.

(** The path [first["snippet"]["channelId"]] of a lookup. *)
Definition snippet_channel_id (first : pyval) : outcome pyval :=
  and_then (getitem first (py "snippet")) (fun s => getitem s (py "channelId")).

End Shapes.
Export Shapes.

(* ================================================================= *)
(** ** A platform with one channel *)

Module Platform.

Definition channel_full : pyval :=
  dict [("id", PStr (py "UC1"));
        ("snippet", dict [("title", PStr (py "Channel"));
                          ("description", PStr (py "About"))]);
        ("statistics", dict [("subscriberCount", PStr (py "10"));
                             ("viewCount", PStr (py "2000"))])]%string.

(** A channel that hides its subscriber count. *)
Definition channel_hidden : pyval :=
  dict [("id", PStr (py "UC1"));
        ("snippet", dict [("title", PStr (py "Channel"));
                          ("description", PStr (py "About"))]);
        ("statistics", dict [("viewCount", PStr (py "2000"))])]%string.

Definition video_hit : pyval :=
  dict [("id", dict [("kind", PStr (py "youtube#video"));
                     ("videoId", PStr (py "vid1"))]);
        ("snippet", dict [("channelId", PStr (py "UC1"));
                          ("title", PStr (py "Latest"));
                          ("description", PStr (py "A long description"));
                          ("publishedAt", PStr (py "2024-01-01T00:00:00Z"))])]%string.

(** A search hit that is a playlist: its [id] has no [videoId]. *)
Definition playlist_hit : pyval :=
  dict [("id", dict [("kind", PStr (py "youtube#playlist"));
                     ("playlistId", PStr (py "PL1"))]);
        ("snippet", dict [("channelId", PStr (py "UC1"));
                          ("title", PStr (py "List"));
                          ("description", PStr (py "A playlist"));
                          ("publishedAt", PStr (py "2024-01-01T00:00:00Z"))])]%string.

(** The platform answers [channels] queries with [channel_item],
    [videos] and [search] queries with [hit], comment queries with the
    first [maxResults] of [threads]; both pipelines answer. *)
Definition world_of (channel_item hit : pyval) (threads : list pyval) : World :=
  fun _ r =>
    match r with
    | YouTubeList resource kwargs =>
        if str_eqb resource (py "channels") then
          Return (dict [("items", PList [channel_item])]%string)
        else if str_eqb resource (py "commentThreads") then
          Return (dict [("items", PList (firstn (max_results_of kwargs) threads))]%string)
        else Return (dict [("items", PList [hit])]%string)
    | Summarizer _ _ =>
        Return (PList [dict [("summary_text", PStr (py "short"))]%string])
    | SentimentAnalyzer _ =>
        Return (PList [dict [("label", PStr (py "POSITIVE"));
                             ("score", PFloat 4607182418800017408)]%string])
    end.

Definition world_ok : World := world_of channel_full video_hit two_threads.
Definition world_hidden : World := world_of channel_hidden video_hit two_threads.
Definition world_playlist : World := world_of channel_full playlist_hit two_threads.
Definition world_broken_thread : World :=
  world_of channel_full video_hit [thread "ann" "one"; PStr (py "oops")].

Definition url_user : str := py "https://www.youtube.com/user/someone ".
Definition url_handle : str := py "https://www.youtube.com/@some@one ".
Definition url_watch : str := py "https://www.youtube.com/watch?v=ABC&t=10".

End Platform.
Export Platform.

(* ================================================================= *)
(** ** Vocabulary of the cuts and of the filled records *)

Module Cuts.

(** The separator that follows [a] in [a ++ sep ++ rest] is the leftmost
    one: [sep] starts at no position inside [a]. *)
Definition leftmost_cut (sep a rest : str) : Prop :=
  forall a1 a2, a = a1 ++ a2 -> a2 <> [] ->
    startswith sep (a2 ++ sep ++ rest) = false.

(** [scanned sep s pieces]: [pieces] are what a scan of [s] from the
    left leaves when it cuts at the leftmost [sep], drops it and goes on
    behind it, until no [sep] is left. *)
Inductive scanned (sep : str) : str -> list str -> Prop :=
| scanned_last (s : str) :
    contains sep s = false -> scanned sep s [s]
| scanned_cut (a rest : str) (pieces : list str) :
    leftmost_cut sep a rest ->
    scanned sep rest pieces ->
    scanned sep (a ++ sep ++ rest) (a :: pieces).

(** [value] is read from [comment] along
    [comment["snippet"]["topLevelComment"]["snippet"][field]]. *)
Definition thread_field (comment : pyval) (field : str) (value : pyval) : Prop :=
  exists a b c,
    getitem comment (py "snippet") = Return a
    /\ getitem a (py "topLevelComment") = Return b
    /\ getitem b (py "snippet") = Return c
    /\ getitem c field = Return value.

(** [rec] is the four-field record of [comment], field by field: the
    author and the text of the thread, and for each annotation the
    unwrapped answer of its pipeline on that text, or [None] when the
    pipeline or the unwrapping failed. *)
Definition filled_record (w : World) (comment rec : pyval) : Prop :=
  exists author text tr1 tr2,
    thread_field comment (py "authorDisplayName") author
    /\ thread_field comment (py "textDisplay") text
    /\ rec = PDict
         [(py "author", author);
          (py "text", text);
          (py "summarized_comment",
           value_or_none
             (and_then
                (w tr1 (Summarizer text
                          [(py "max_length", PInt 50); (py "min_length", PInt 25);
                           (py "do_sample", PBool false)]))
                summary_text_of));
          (py "sentiment",
           value_or_none
             (and_then (w tr2 (SentimentAnalyzer text)) first_label_of))].

(** [rec] has the author and the text of [comment] and [None] for both
    annotations. *)
Definition unannotated_record (comment rec : pyval) : Prop :=
  exists author text,
    thread_field comment (py "authorDisplayName") author
    /\ thread_field comment (py "textDisplay") text
    /\ rec = PDict [(py "author", author); (py "text", text);
                    (py "summarized_comment", PNone); (py "sentiment", PNone)].

(** Both pipelines fail on every text. *)
Definition pipelines_down (w : World) : Prop :=
  (forall tr text kwargs, exists e, w tr (Summarizer text kwargs) = Raise e)
  /\ (forall tr text, exists e, w tr (SentimentAnalyzer text) = Raise e).

(** The page [index] selects, among its three [render_template] calls. *)
Definition selected_page (page : rendering) : Prop :=
  page = render_template (py "index.html") []
  \/ page = render_template (py "index.html")
              [(py "error", PStr (py "Invalid YouTube URL"))]
  \/ exists channel_data video_data,
       page = render_template (py "result.html")
                [(py "channel_data", channel_data); (py "video_data", video_data)].

End Cuts.
Export Cuts.

Module MoreSamples.

(** A platform holding [threads] for every video, with both pipelines
    failing. *)
Definition world_mute (threads : list pyval) : World :=
  fun _ r =>
    match r with
    | YouTubeList _ kwargs =>
        Return (dict [("items", PList (firstn (max_results_of kwargs) threads))]%string)
    | Summarizer _ _ => Raise (ExternalError (py "input too short"))
    | SentimentAnalyzer _ => Raise (ExternalError (py "model unavailable"))
    end.

Definition url_channel_videos : str :=
  py "https://www.youtube.com/channel/UC123/videos?view=0".
Definition url_user_twice : str := py "https://www.youtube.com/user/user/".

End MoreSamples.
Export MoreSamples.

Unset Implicit Arguments.

(* ================================================================= *)
(** ** Strings: prefixes, occurrences and cuts *)

Lemma char_eqb_eq (a b : char) : char_eqb a b = true <-> a = b.
Proof. apply N.eqb_eq. Qed.

Lemma startswith_iff (p s : str) :
  startswith p s = true <-> exists r, s = p ++ r.
Proof.
  revert s; induction p as [|x p IH]; intros s; simpl.
  - split; [intros _; now exists s | reflexivity].
  - destruct s as [|y s].
    + split; [discriminate | intros [r Hr]; discriminate].
    + rewrite andb_true_iff, char_eqb_eq, IH. split.
      * intros [-> [r ->]]. now exists r.
      * intros [r Hr]. injection Hr as -> ->. split; [reflexivity | now exists r].
Qed.

Lemma contains_iff (sub s : str) :
  contains sub s = true <-> exists a b, s = a ++ sub ++ b.
Proof.
  induction s as [|c s IH]; simpl.
  - rewrite orb_false_r, startswith_iff. split.
    + intros [r Hr]. now exists [], r.
    + intros [a [b H]]. destruct a; [now exists b|discriminate].
  - rewrite orb_true_iff, startswith_iff, IH. split.
    + intros [[r Hr] | [a [b ->]]].
      * now exists [], r.
      * now exists (c :: a), b.
    + intros [a [b H]]. destruct a as [|x a]; simpl in H.
      * left. now exists b.
      * right. injection H as -> ->. now exists a, b.
Qed.

Lemma skipn_length_app (p r : str) : skipn (length p) (p ++ r) = r.
Proof. induction p; simpl; auto. Qed.

(** [partition] cuts at an occurrence, the leftmost one. *)
Lemma partition_some (sep s a b : str) :
  partition sep s = Some (a, b) ->
  s = a ++ sep ++ b /\ (sep <> [] -> contains sep a = false).
Proof.
  revert a b; induction s as [|c s IH]; intros a b; cbn [partition].
  - destruct (startswith sep []) eqn:E; [|discriminate].
    intros H; injection H as <- <-.
    apply startswith_iff in E as [r Hr].
    destruct sep; [|discriminate]. simpl. split; [reflexivity | now intros []].
  - destruct (startswith sep (c :: s)) eqn:E.
    + intros H; injection H as <- <-.
      apply startswith_iff in E as [r Hr]. rewrite Hr, skipn_length_app.
      split; [reflexivity|]. intros Hne. destruct sep; [now destruct Hne | reflexivity].
    + destruct (partition sep s) as [[a' b']|] eqn:P; [|discriminate].
      intros H; injection H as <- <-.
      destruct (IH _ _ eq_refl) as [-> Hno].
      split; [reflexivity|]. intros Hne. simpl.
      rewrite (Hno Hne), orb_false_r.
      destruct (startswith sep (c :: a')) eqn:E'; [|reflexivity].
      apply startswith_iff in E' as [r Hr].
      assert (startswith sep (c :: a' ++ sep ++ b') = true) as X.
      { apply startswith_iff. exists (r ++ sep ++ b').
        rewrite (app_assoc sep r), <- Hr. reflexivity. }
      congruence.
Qed.

Lemma partition_none (sep s : str) :
  partition sep s = None <-> contains sep s = false.
Proof.
  induction s as [|c s IH]; simpl.
  - destruct (startswith sep []); simpl; split; congruence.
  - destruct (startswith sep (c :: s)); simpl.
    + split; congruence.
    + rewrite <- IH. destruct (partition sep s) as [[? ?]|]; split; congruence.
Qed.

Lemma partition_shorter (sep s a b : str) :
  sep <> [] -> partition sep s = Some (a, b) -> length b < length s.
Proof.
  intros Hne H. apply partition_some in H as [-> _].
  rewrite !length_app. destruct sep; [now destruct Hne | simpl; lia].
Qed.

Lemma partition_nil (sep : str) : sep <> [] -> partition sep [] = None.
Proof. destruct sep; [now intros [] | reflexivity]. Qed.

(** Any fuel above the length of the string gives the same pieces. *)
Lemma split_fuel_stable (sep : str) (n m : nat) (s : str) :
  sep <> [] -> length s <= n -> length s <= m ->
  split_fuel n sep s = split_fuel m sep s.
Proof.
  intros Hne. revert m s.
  induction n as [|n IH]; intros [|m] s Hn Hm; try reflexivity.
  - destruct s; [|simpl in Hn; lia]. cbn [split_fuel]. now rewrite partition_nil.
  - destruct s; [|simpl in Hm; lia]. cbn [split_fuel]. now rewrite partition_nil.
  - cbn [split_fuel]. destruct (partition sep s) as [[a b]|] eqn:P; [|reflexivity].
    pose proof (partition_shorter _ _ _ _ Hne P). f_equal. apply IH; lia.
Qed.

(** The equation of [split]: what Python's [split] does, cut by cut. *)
Lemma split_eq (sep s : str) :
  sep <> [] ->
  split sep s =
  match partition sep s with
  | None => [s]
  | Some (a, b) => a :: split sep b
  end.
Proof.
  intros Hne. unfold split. destruct s as [|c s].
  - cbn [length split_fuel]. now rewrite partition_nil.
  - cbn [length split_fuel].
    destruct (partition sep (c :: s)) as [[a b]|] eqn:P; [|reflexivity].
    pose proof (partition_shorter _ _ _ _ Hne P) as L. simpl in L.
    f_equal. apply split_fuel_stable; auto; lia.
Qed.

Lemma split_nonempty (sep s : str) : split sep s <> [].
Proof.
  unfold split. destruct (length s); simpl; [discriminate|].
  destruct (partition sep s) as [[? ?]|]; discriminate.
Qed.

Lemma split_absent (sep s : str) :
  sep <> [] -> contains sep s = false -> split sep s = [s].
Proof.
  intros Hne H. rewrite split_eq by assumption.
  apply partition_none in H. now rewrite H.
Qed.

(** The first piece ends at the leftmost occurrence of the separator. *)
Lemma first_piece_split (sep s : str) :
  sep <> [] ->
  contains sep (first_piece (split sep s)) = false
  /\ (s = first_piece (split sep s)
      \/ exists rest, s = first_piece (split sep s) ++ sep ++ rest).
Proof.
  intros Hne. rewrite split_eq by assumption.
  destruct (partition sep s) as [[a b]|] eqn:P; simpl.
  - apply partition_some in P as [-> Hno]. split; [auto|]. right. now exists b.
  - apply partition_none in P. auto.
Qed.

(** The last piece is what follows the last cut: the separator stands
    right before it and does not occur in it. *)
Lemma last_piece_split (sep s : str) :
  sep <> [] -> contains sep s = true ->
  contains sep (last_piece (split sep s)) = false
  /\ exists pre, s = pre ++ sep ++ last_piece (split sep s).
Proof.
  intros Hne. remember (length s) as n eqn:Hn.
  assert (length s <= n) as L by lia. clear Hn. revert s L.
  induction n as [|n IH]; intros s L Hc.
  - destruct s; [|simpl in L; lia].
    apply not_false_iff_true in Hc. exfalso. apply Hc.
    apply partition_none. now apply partition_nil.
  - rewrite split_eq by assumption.
    destruct (partition sep s) as [[a b]|] eqn:P.
    + pose proof (partition_shorter _ _ _ _ Hne P) as Lb.
      apply partition_some in P as [-> _].
      assert (last_piece (a :: split sep b) = last_piece (split sep b)) as ->.
      { unfold last_piece. simpl.
        destruct (split sep b) eqn:E; [now apply split_nonempty in E | reflexivity]. }
      destruct (contains sep b) eqn:Cb.
      * destruct (IH b ltac:(lia) Cb) as [Hno [pre Hpre]].
        split; [assumption|]. exists (a ++ sep ++ pre).
        rewrite Hpre at 1. now rewrite <- !app_assoc.
      * rewrite (split_absent _ _ Hne Cb). simpl. split; [assumption | now exists a].
    + apply partition_none in P. congruence.
Qed.

(** ** Strings: trimming *)

Lemma lstrip_spec (s : str) :
  (exists l, s = l ++ lstrip s /\ forallb is_space l = true)
  /\ (forall c, hd_error (lstrip s) = Some c -> is_space c = false).
Proof.
  induction s as [|c s [[l [Hl Hs]] Hh]]; simpl.
  - split; [now exists [] | discriminate].
  - destruct (is_space c) eqn:E.
    + split; [|assumption]. exists (c :: l). simpl. rewrite E, Hs.
      split; [now rewrite <- Hl | reflexivity].
    + split; [now exists []|]. simpl. now intros ? [= <-].
Qed.

Lemma rstrip_spec (s : str) :
  (exists r, s = rstrip s ++ r /\ forallb is_space r = true)
  /\ (forall c, hd_error (rev (rstrip s)) = Some c -> is_space c = false).
Proof.
  unfold rstrip. destruct (lstrip_spec (rev s)) as [[l [Hl Hs]] Hh]. split.
  - exists (rev l). split.
    + rewrite <- rev_app_distr, <- Hl. now rewrite rev_involutive.
    + rewrite forallb_forall in *. intros x Hx. apply Hs. now apply in_rev.
  - now rewrite rev_involutive.
Qed.

Lemma strip_trimmed (s : str) : trimmed_of s (strip s).
Proof.
  unfold strip, trimmed_of.
  destruct (lstrip_spec s) as [[l [Hl Hsl]] Hh].
  destruct (rstrip_spec (lstrip s)) as [[r [Hr Hsr]] Hlast].
  split; [|split].
  - exists l, r. split; [|auto]. rewrite <- Hr. exact Hl.
  - intros c Hc. apply Hh. rewrite Hr.
    destruct (rstrip (lstrip s)); [discriminate | exact Hc].
  - exact Hlast.
Qed.

(* ================================================================= *)
(** ** Exceptions stop at the handlers *)

Ltac run_monad :=
  unfold returned_or, try_except, bind, call, subscript, subscript_int,
    lift, ret, raise, print_exn, print, emit.

Create HintDb total discriminated.

Lemma never_raises_ret {A} (a : A) : never_raises (ret a).
Proof. intros tr. now exists a, tr. Qed.

Lemma never_raises_log {A} (prefix : str) (e : exn) (a : A) :
  never_raises (print_exn prefix e ;;; ret a).
Proof. intros tr. now exists a, (tr ++ [Log prefix e]). Qed.

Lemma never_raises_try {A} (m : M A) (h : exn -> M A) :
  (forall e, never_raises (h e)) -> never_raises (try_except m h).
Proof.
  intros H tr. unfold try_except.
  destruct (m tr) as [[a|e] tr']; [now exists a, tr' | apply H].
Qed.

Lemma never_raises_returned_or (body : M (option pyval)) (rest : M pyval) :
  never_raises body -> never_raises rest -> never_raises (returned_or body rest).
Proof.
  intros Hb Hr tr. unfold returned_or, bind.
  destruct (Hb tr) as [r [tr' ->]].
  destruct r as [v|]; [now exists v, tr' | apply Hr].
Qed.

#[export] Hint Resolve never_raises_ret never_raises_log never_raises_try
  never_raises_returned_or : total.

(** A handler around a computation that never raises is never entered. *)
Lemma try_except_unused {A} (m : M A) (h : exn -> M A) (tr : trace) :
  never_raises m -> try_except m h tr = m tr.
Proof.
  intros H. unfold try_except. now destruct (H tr) as [a [tr' ->]].
Qed.

Section Lookups.

Variable w : World.

Lemma get_channel_from_video_total (video_id : pyval) :
  never_raises (get_channel_from_video w video_id).
Proof. unfold get_channel_from_video. auto with total. Qed.

Lemma get_channel_from_username_total (username : pyval) :
  never_raises (get_channel_from_username w username).
Proof. unfold get_channel_from_username. auto with total. Qed.

Lemma get_channel_from_handle_total (handle : str) :
  never_raises (get_channel_from_handle w handle).
Proof. unfold get_channel_from_handle. auto with total. Qed.

Lemma summarize_text_total (text : pyval) : never_raises (summarize_text w text).
Proof. unfold summarize_text. auto with total. Qed.

Lemma analyze_sentiment_total (text : pyval) : never_raises (analyze_sentiment w text).
Proof. unfold analyze_sentiment. auto with total. Qed.

Lemma fetch_comments_total (video_id : pyval) : never_raises (fetch_comments w video_id).
Proof. unfold fetch_comments. auto with total. Qed.

Lemma resolve_channel_id_total (url : str) : never_raises (resolve_channel_id w url).
Proof. unfold resolve_channel_id. auto with total. Qed.

End Lookups.

(* ================================================================= *)
(** ** The URL resolver *)

Lemma video_key_cut (url : str) :
  contains (py "v=") url = true ->
  exists pre tail,
    url = pre ++ py "v=" ++ tail
    /\ contains (py "v=") tail = false
    /\ contains (py "&") (video_key url) = false
    /\ (tail = video_key url \/ exists more, tail = video_key url ++ py "&" ++ more).
Proof.
  intros H. unfold video_key.
  destruct (last_piece_split (py "v=") url ltac:(discriminate) H) as [Hno [pre Hpre]].
  destruct (first_piece_split (py "&") (last_piece (split (py "v=") url))
              ltac:(discriminate)) as [Hamp Hcut].
  exists pre, (last_piece (split (py "v=") url)). auto.
Qed.

Section Branches.

Variables (w : World) (url : str) (tr : trace).

Ltac take_branch :=
  unfold watch_marker, channel_marker, user_marker, handle_marker;
  intros; unfold resolve_channel_id;
  repeat match goal with H : contains _ _ = _ |- _ => rewrite H; clear H end;
  try reflexivity;
  apply try_except_unused;
  auto using get_channel_from_video_total, get_channel_from_username_total,
    get_channel_from_handle_total.

Lemma resolve_on_watch :
  contains watch_marker url = true ->
  resolve_channel_id w url tr
  = get_channel_from_video w (PStr (video_key url)) tr.
Proof. take_branch. Qed.

Lemma resolve_on_channel :
  contains watch_marker url = false ->
  contains channel_marker url = true ->
  resolve_channel_id w url tr = (Return (PStr (channel_key url)), tr).
Proof. take_branch. Qed.

Lemma resolve_on_user :
  contains watch_marker url = false ->
  contains channel_marker url = false ->
  contains user_marker url = true ->
  resolve_channel_id w url tr
  = get_channel_from_username w (PStr (user_key url)) tr.
Proof. take_branch. Qed.

Lemma resolve_on_handle :
  contains watch_marker url = false ->
  contains channel_marker url = false ->
  contains user_marker url = false ->
  contains handle_marker url = true ->
  resolve_channel_id w url tr = get_channel_from_handle w (handle_key url) tr.
Proof. take_branch. Qed.

Lemma resolve_on_other :
  contains watch_marker url = false ->
  contains channel_marker url = false ->
  contains user_marker url = false ->
  contains handle_marker url = false ->
  resolve_channel_id w url tr
  = (Return PNone,
     tr ++ [Log (py "Error resolving channel ID: ")
                (ValueError (py "Invalid YouTube URL format."))]).
Proof. take_branch. Qed.

End Branches.

Example video_key_with_time :
  video_key (py "https://www.youtube.com/watch?v=ABC&t=10") = py "ABC".
Proof. reflexivity. Qed.

Example split_on_overlapping_marker :
  split (py "/channel/") (py "/channel/channel/") = [py ""; py "channel/"].
Proof. reflexivity. Qed.

Example handle_key_last_at :
  handle_key (py "https://www.youtube.com/@some@one ") = py "one".
Proof. reflexivity. Qed.

(** C1: on [https://www.youtube.com/watch?v=ABC&rv=DEF] the video-id
    parameter is [ABC], the characters between the watch pattern and the
    next [&]; [resolve_channel_id] hands [DEF] to the video lookup, the
    text after the last [v=] of the URL. *)
Theorem resolve_video_id_after_last_v :
  url_two_v = py "https://www." ++ watch_marker ++ py "ABC" ++ py "&" ++ py "rv=DEF"
  /\ contains watch_marker url_two_v = true
  /\ contains (py "&") (py "ABC") = false
  /\ video_key url_two_v = py "DEF"
  /\ video_key url_two_v <> py "ABC"
  /\ forall (w : World) (tr : trace),
       resolve_channel_id w url_two_v tr
       = get_channel_from_video w (PStr (py "DEF")) tr.
Proof.
  assert (video_key url_two_v = py "DEF") as K by reflexivity.
  split; [reflexivity|]. split; [reflexivity|]. split; [reflexivity|].
  split; [exact K|]. split; [rewrite K; discriminate|].
  intros w tr. rewrite <- K. now apply resolve_on_watch.
Qed.

(** C2: the four markers are tried in the order video-watch,
    channel-path, user-path, handle, and the first one present decides
    the strategy whatever other markers the URL holds; without any of
    them no strategy runs. *)
Theorem resolve_first_match_wins (w : World) (url : str) (tr : trace) :
  (contains watch_marker url = true ->
     resolve_channel_id w url tr
     = get_channel_from_video w (PStr (video_key url)) tr)
  /\ (contains watch_marker url = false ->
      contains channel_marker url = true ->
        resolve_channel_id w url tr = (Return (PStr (channel_key url)), tr))
  /\ (contains watch_marker url = false ->
      contains channel_marker url = false ->
      contains user_marker url = true ->
        resolve_channel_id w url tr
        = get_channel_from_username w (PStr (user_key url)) tr)
  /\ (contains watch_marker url = false ->
      contains channel_marker url = false ->
      contains user_marker url = false ->
      contains handle_marker url = true ->
        resolve_channel_id w url tr
        = get_channel_from_handle w (handle_key url) tr)
  /\ (contains watch_marker url = false ->
      contains channel_marker url = false ->
      contains user_marker url = false ->
      contains handle_marker url = false ->
        resolve_channel_id w url tr
        = (Return PNone,
           tr ++ [Log (py "Error resolving channel ID: ")
                      (ValueError (py "Invalid YouTube URL format."))])).
Proof.
  split; [apply resolve_on_watch|].
  split; [apply resolve_on_channel|].
  split; [apply resolve_on_user|].
  split; [apply resolve_on_handle | apply resolve_on_other].
Qed.

Lemma resolve_first_match_wins_witness :
  contains watch_marker url_both = true
  /\ contains channel_marker url_both = true
  /\ resolve_channel_id world_empty url_both []
     = get_channel_from_video world_empty (PStr (py "ABC")) [].
Proof.
  split; [reflexivity | split; [reflexivity|]].
  exact (proj1 (resolve_first_match_wins world_empty url_both []) eq_refl).
Defined.

(** C3: a URL holding none of the four markers is resolved to [None]:
    no exception leaves [resolve_channel_id], no lookup is attempted,
    only the diagnostic line is printed; and [index], posted such a URL,
    renders [index.html] with the error "Invalid YouTube URL". *)
Theorem unrecognized_url_is_rejected (w : World) (url : str) (tr : trace) :
  contains watch_marker url = false ->
  contains channel_marker url = false ->
  contains user_marker url = false ->
  contains handle_marker url = false ->
  let diagnostic :=
    Log (py "Error resolving channel ID: ")
        (ValueError (py "Invalid YouTube URL format.")) in
  resolve_channel_id w url tr = (Return PNone, tr ++ [diagnostic])
  /\ forall form,
       form_get form (py "url") = Return url ->
       index w (py "POST") form tr
       = (Return (render_template (py "index.html")
                    [(py "error", PStr (py "Invalid YouTube URL"))]),
          tr ++ [diagnostic]).
Proof.
  intros Hw Hc Hu Hh diagnostic.
  assert (resolve_channel_id w url tr = (Return PNone, tr ++ [diagnostic])) as R.
  { exact (resolve_on_other w url tr Hw Hc Hu Hh). }
  split; [exact R|].
  intros form Hform. unfold index.
  change (str_eqb (py "POST") (py "POST")) with true. cbv iota.
  unfold bind at 1. unfold lift. rewrite Hform.
  unfold bind. rewrite R. reflexivity.
Qed.

Lemma unrecognized_url_is_rejected_witness :
  fst (resolve_channel_id world_empty url_other []) = Return PNone
  /\ fst (index world_empty (py "POST") [(py "url", url_other)] [])
     = Return (render_template (py "index.html")
                 [(py "error", PStr (py "Invalid YouTube URL"))]).
Proof.
  destruct (unrecognized_url_is_rejected world_empty url_other []
              eq_refl eq_refl eq_refl eq_refl) as [R I].
  split.
  - rewrite R. reflexivity.
  - rewrite (I [(py "url", url_other)] eq_refl). reflexivity.
Defined.

(** C8: on [https://www.youtube.com/channel/UC123/videos?view=0], a URL
    with the channel-path marker and without the video-watch marker,
    the channel identifier is the path segment [UC123];
    [resolve_channel_id] returns [UC123/videos?view=0], everything from
    the marker to the end of the URL, which is more than one path
    segment.  It does so without any external call. *)
Theorem channel_url_keeps_what_follows_the_id :
  url_channel_videos
  = py "https://www." ++ channel_marker ++ py "UC123" ++ py "/videos?view=0"
  /\ contains watch_marker url_channel_videos = false
  /\ contains channel_marker url_channel_videos = true
  /\ contains (py "/") (py "UC123") = false
  /\ channel_key url_channel_videos = py "UC123/videos?view=0"
  /\ channel_key url_channel_videos <> py "UC123"
  /\ contains (py "/") (channel_key url_channel_videos) = true
  /\ forall (w : World) (tr : trace),
       resolve_channel_id w url_channel_videos tr
       = (Return (PStr (py "UC123/videos?view=0")), tr).
Proof.
  assert (channel_key url_channel_videos = py "UC123/videos?view=0") as K
    by reflexivity.
  split; [reflexivity|]. split; [reflexivity|]. split; [reflexivity|].
  split; [reflexivity|]. split; [exact K|].
  split; [rewrite K; discriminate|]. split; [rewrite K; reflexivity|].
  intros w tr. rewrite <- K.
  exact (resolve_on_channel w url_channel_videos tr eq_refl eq_refl).
Qed.

(* ================================================================= *)
(** ** Channel identity lookups *)

Ltac lookup_collapses total_lemma :=
  split; [apply total_lemma | split];
  [ intros e He; run_monad; rewrite He; reflexivity
  | intros resp Hresp Hitems; run_monad; rewrite Hresp; cbv beta iota;
    rewrite Hitems; reflexivity ].

(** C6: each of the three lookups (from a video id, from a username,
    from a handle) lets no exception out, returns [None] when its
    request raises and returns [None] when the response has no items:
    the caller sees the same value in both cases. *)
Theorem lookups_collapse_to_none
  (w : World) (tr : trace) (video_id username : pyval) (handle : str) :
  not_found_on w tr (videos_request video_id) (get_channel_from_video w video_id)
  /\ not_found_on w tr (username_request username)
       (get_channel_from_username w username)
  /\ not_found_on w tr (handle_request handle) (get_channel_from_handle w handle).
Proof.
  unfold not_found_on. split; [|split].
  - unfold get_channel_from_video.
    lookup_collapses (get_channel_from_video_total w video_id).
  - unfold get_channel_from_username.
    lookup_collapses (get_channel_from_username_total w username).
  - unfold get_channel_from_handle.
    lookup_collapses (get_channel_from_handle_total w handle).
Qed.

Lemma lookups_collapse_to_none_witness :
  (fst (get_channel_from_video world_down (PStr (py "XYZ")) []) = Return PNone
   /\ fst (get_channel_from_video world_empty (PStr (py "XYZ")) []) = Return PNone)
  /\ (fst (get_channel_from_username world_down (PStr (py "someone")) []) = Return PNone
      /\ fst (get_channel_from_username world_empty (PStr (py "someone")) []) = Return PNone)
  /\ (fst (get_channel_from_handle world_down (py "someone") []) = Return PNone
      /\ fst (get_channel_from_handle world_empty (py "someone") []) = Return PNone).
Proof.
  destruct (lookups_collapse_to_none world_down [] (PStr (py "XYZ"))
              (PStr (py "someone")) (py "someone"))
    as [[_ [Dv _]] [[_ [Du _]] [_ [Dh _]]]].
  destruct (lookups_collapse_to_none world_empty [] (PStr (py "XYZ"))
              (PStr (py "someone")) (py "someone"))
    as [[_ [_ Ev]] [[_ [_ Eu]] [_ [_ Eh]]]].
  split; [split | split; split].
  - exact (Dv _ eq_refl).
  - exact (Ev _ eq_refl eq_refl).
  - exact (Du _ eq_refl).
  - exact (Eu _ eq_refl eq_refl).
  - exact (Dh _ eq_refl).
  - exact (Eh _ eq_refl eq_refl).
Defined.

(* ================================================================= *)
(** ** Text annotation *)

Lemma bind_return {A B} (m : M A) (k : A -> M B) (tr tr' : trace) (a : A) :
  m tr = (Return a, tr') -> bind m k tr = k a tr'.
Proof. intros H. unfold bind. now rewrite H. Qed.

Lemma bind_raise {A B} (m : M A) (k : A -> M B) (tr tr' : trace) (e : exn) :
  m tr = (Raise e, tr') -> bind m k tr = (Raise e, tr').
Proof. intros H. unfold bind. now rewrite H. Qed.

Lemma bind_inv {A B} (m : M A) (k : A -> M B) (tr tr'' : trace) (b : B) :
  bind m k tr = (Return b, tr'') ->
  exists a tr', m tr = (Return a, tr') /\ k a tr' = (Return b, tr'').
Proof.
  unfold bind. destruct (m tr) as [[a|e] tr']; [|discriminate].
  intros H. now exists a, tr'.
Qed.

Lemma summarize_text_value (w : World) (text : pyval) (tr : trace) :
  fst (summarize_text w text tr)
  = Return (value_or_none
              (and_then (w tr (summarizer_request text)) summary_text_of)).
Proof.
  unfold summarize_text, summary_text_of. run_monad.
  destruct (w tr (summarizer_request text)) as [summary|e]; [|reflexivity].
  simpl and_then. destruct (getindex summary 0) as [first|e]; [|reflexivity].
  simpl and_then. destruct (getitem first (py "summary_text")); reflexivity.
Qed.

Lemma analyze_sentiment_value (w : World) (text : pyval) (tr : trace) :
  fst (analyze_sentiment w text tr)
  = Return (value_or_none
              (and_then (w tr (SentimentAnalyzer text)) first_label_of)).
Proof.
  unfold analyze_sentiment, first_label_of. run_monad.
  destruct (w tr (SentimentAnalyzer text)) as [sentiment|e]; [|reflexivity].
  simpl and_then. destruct (getindex sentiment 0); reflexivity.
Qed.

(* ================================================================= *)
(** ** The trace only grows *)

Lemma appends_only_ret {A} (a : A) : appends_only (ret a).
Proof. intros tr o tr' [= _ <-]. exists []. now rewrite app_nil_r. Qed.

Lemma appends_only_lift {A} (o : outcome A) : appends_only (lift o).
Proof. intros tr o' tr' [= _ <-]. exists []. now rewrite app_nil_r. Qed.

Lemma appends_only_call (w : World) (r : request) : appends_only (call w r).
Proof. intros tr o tr' [= _ <-]. now exists [Called r]. Qed.

Lemma appends_only_emit (ev : event) : appends_only (emit ev).
Proof. intros tr o tr' [= _ <-]. now exists [ev]. Qed.

Lemma appends_only_bind {A B} (m : M A) (k : A -> M B) :
  appends_only m -> (forall a, appends_only (k a)) -> appends_only (bind m k).
Proof.
  intros Hm Hk tr o tr'. unfold bind.
  destruct (m tr) as [[a|e] t1] eqn:E; intros H.
  - destruct (Hm _ _ _ E) as [l1 ->]. destruct (Hk _ _ _ _ H) as [l2 ->].
    exists (l1 ++ l2). now rewrite app_assoc.
  - injection H as _ <-. exact (Hm _ _ _ E).
Qed.

Lemma appends_only_try {A} (m : M A) (h : exn -> M A) :
  appends_only m -> (forall e, appends_only (h e)) ->
  appends_only (try_except m h).
Proof.
  intros Hm Hh tr o tr'. unfold try_except.
  destruct (m tr) as [[a|e] t1] eqn:E; intros H.
  - injection H as _ <-. exact (Hm _ _ _ E).
  - destruct (Hm _ _ _ E) as [l1 ->]. destruct (Hh _ _ _ _ H) as [l2 ->].
    exists (l1 ++ l2). now rewrite app_assoc.
Qed.

Ltac appends_only_steps :=
  repeat first
    [ apply appends_only_try | apply appends_only_bind | apply appends_only_ret
    | apply appends_only_lift | apply appends_only_call | apply appends_only_emit
    | intro ].

Lemma summarize_text_appends (w : World) (text : pyval) :
  appends_only (summarize_text w text).
Proof.
  unfold summarize_text, subscript, subscript_int, print_exn.
  appends_only_steps.
Qed.

Lemma analyze_sentiment_appends (w : World) (text : pyval) :
  appends_only (analyze_sentiment w text).
Proof.
  unfold analyze_sentiment, subscript_int, print_exn. appends_only_steps.
Qed.

Lemma comments_loop_appends (w : World) (items : list pyval) :
  forall acc, appends_only (comments_loop w items acc).
Proof.
  induction items as [|comment rest IH]; intros acc; cbn [comments_loop].
  - apply appends_only_ret.
  - repeat (apply appends_only_bind; [|intro]);
      auto using appends_only_lift, summarize_text_appends,
        analyze_sentiment_appends.
Qed.

(* ================================================================= *)
(** ** Comment aggregation *)

Section Comments.

Variable w : World.

(** Whatever the loop returns extends the list it was given by one
    record per item, in the order of the items. *)
Lemma comments_loop_inv (items : list pyval) :
  forall (acc : list pyval) (tr tr' : trace) (l : list pyval),
    comments_loop w items acc tr = (Return l, tr') ->
    exists recs, l = acc ++ recs /\ Forall2 (record_for w) items recs.
Proof.
  induction items as [|comment rest IH]; intros acc tr tr' l H.
  - injection H as <- _. exists []. split; [now rewrite app_nil_r | constructor].
  - cbn [comments_loop] in H.
    apply bind_inv in H as (author & t1 & Ha & H).
    apply bind_inv in H as (text & t2 & Ht & H).
    apply bind_inv in H as (sm & t3 & Hs & H).
    apply bind_inv in H as (st & t4 & Hst & H).
    apply IH in H as (recs & -> & F).
    exists (comment_record author text sm st :: recs).
    split; [now rewrite <- app_assoc|].
    constructor; [|exact F].
    unfold lift in Ha, Ht. injection Ha as Ha _. injection Ht as Ht _.
    exists author, text, sm, st, t2, t3.
    rewrite Hs, Hst. auto.
Qed.

(** On threads whose two fields can be read the loop goes through. *)
Lemma comments_loop_returns (items : list pyval) :
  Forall readable_thread items ->
  forall (acc : list pyval) (tr : trace),
    exists l tr', comments_loop w items acc tr = (Return l, tr').
Proof.
  induction 1 as [|comment rest (author & text & Ha & Ht) _ IH]; intros acc tr.
  - now exists acc, tr.
  - cbn [comments_loop]. unfold lift. rewrite Ha, Ht.
    rewrite (bind_return _ _ tr tr author eq_refl).
    rewrite (bind_return _ _ tr tr text eq_refl).
    destruct (summarize_text_total w text tr) as (sm & t1 & Hs).
    rewrite (bind_return _ _ _ _ _ Hs).
    destruct (analyze_sentiment_total w text t1) as (st & t2 & Hst).
    rewrite (bind_return _ _ _ _ _ Hst).
    apply IH.
Qed.

(** [fetch_comments] written out: where it can fail, and what it
    returns then. *)
Lemma fetch_comments_eq (video_id : pyval) (tr : trace) :
  fetch_comments w video_id tr =
  let tr1 := tr ++ [Called (comment_threads_request video_id 5)] in
  let failed := fun e tr' =>
    (Return (PList []), tr' ++ [Log (py "Error fetching comments: ") e]) in
  match w tr (comment_threads_request video_id 5) with
  | Raise e => failed e tr1
  | Return response =>
      match getitem response (py "items") with
      | Raise e => failed e tr1
      | Return items =>
          if truthy items then
            match iterate items with
            | Raise e => failed e tr1
            | Return elements =>
                match comments_loop w elements [] tr1 with
                | (Return l, tr2) => (Return (PList l), tr2)
                | (Raise e, tr2) => failed e tr2
                end
            end
          else (Return (PList [no_comments_record]), tr1)
      end
  end.
Proof.
  unfold fetch_comments. run_monad.
  destruct (w tr (comment_threads_request video_id 5)) as [response|e];
    [|reflexivity].
  destruct (getitem response (py "items")) as [items|e]; [|reflexivity].
  destruct (truthy items); [|reflexivity].
  destruct (iterate items) as [elements|e]; [|reflexivity].
  cbv beta iota zeta.
  destruct (comments_loop w elements []
              (tr ++ [Called (comment_threads_request video_id 5)]))
    as [[l|e] tr2]; reflexivity.
Qed.

(** The three shapes of a result: empty, the placeholder alone, or one
    record per element of a non-empty [items]. *)
Lemma fetch_comments_cases (video_id : pyval) (tr : trace) :
  exists recs tr',
    fetch_comments w video_id tr = (Return (PList recs), tr')
    /\ (exists later,
          tr' = tr ++ Called (comment_threads_request video_id 5) :: later)
    /\ (recs = []
        \/ (recs = [no_comments_record]
            /\ exists response items,
                 w tr (comment_threads_request video_id 5) = Return response
                 /\ getitem response (py "items") = Return items
                 /\ truthy items = false)
        \/ (exists response items elements,
              w tr (comment_threads_request video_id 5) = Return response
              /\ getitem response (py "items") = Return items
              /\ truthy items = true
              /\ iterate items = Return elements
              /\ Forall2 (record_for w) elements recs)).
Proof.
  rewrite fetch_comments_eq. cbv zeta.
  set (req := comment_threads_request video_id 5).
  assert (forall e, exists later,
            (tr ++ [Called req]) ++ [Log (py "Error fetching comments: ") e]
            = tr ++ Called req :: later) as Hfail.
  { intros e. eexists. rewrite <- app_assoc. reflexivity. }
  destruct (w tr req) as [response|e] eqn:Hw;
    [|exists [], ((tr ++ [Called req]) ++ [Log (py "Error fetching comments: ") e]);
      auto].
  destruct (getitem response (py "items")) as [items|e] eqn:Hi;
    [|exists [], ((tr ++ [Called req]) ++ [Log (py "Error fetching comments: ") e]);
      auto].
  destruct (truthy items) eqn:Ht.
  - destruct (iterate items) as [elements|e] eqn:Hit;
      [|exists [], ((tr ++ [Called req]) ++ [Log (py "Error fetching comments: ") e]);
        auto].
    destruct (comments_loop w elements [] (tr ++ [Called req]))
      as [[l|e] tr2] eqn:Hl.
    + destruct (comments_loop_inv _ _ _ _ _ Hl) as (recs & -> & F).
      destruct (comments_loop_appends _ _ _ _ _ _ Hl) as [later ->].
      exists recs, ((tr ++ [Called req]) ++ later).
      split; [reflexivity|]. split.
      * exists later. now rewrite <- app_assoc.
      * right. right. now exists response, items, elements.
    + destruct (comments_loop_appends _ _ _ _ _ _ Hl) as [later ->].
      exists [], (((tr ++ [Called req]) ++ later)
                  ++ [Log (py "Error fetching comments: ") e]).
      split; [reflexivity|]. split; [|auto].
      eexists. rewrite <- !app_assoc. reflexivity.
  - exists [no_comments_record], (tr ++ [Called req]).
    split; [reflexivity|]. split; [now exists []|].
    right. left. split; [reflexivity|]. now exists response, items.
Qed.

End Comments.

(** C4: when the platform answers the comment query with an empty
    [items] list, [fetch_comments] returns the list holding exactly the
    "no comments" placeholder record, not the empty list. *)
Theorem zero_comments_yield_placeholder
  (w : World) (video_id : pyval) (tr : trace) (response : pyval) :
  w tr (comment_threads_request video_id 5) = Return response ->
  getitem response (py "items") = Return (PList []) ->
  fetch_comments w video_id tr
  = (Return (PList [no_comments_record]),
     tr ++ [Called (comment_threads_request video_id 5)])
  /\ fst (fetch_comments w video_id tr) <> Return (PList []).
Proof.
  intros Hw Hi. rewrite fetch_comments_eq, Hw, Hi. cbn.
  split; [reflexivity | discriminate].
Qed.

Lemma zero_comments_yield_placeholder_witness :
  fst (fetch_comments world_empty (PStr (py "XYZ")) [])
  = Return (PList [no_comments_record]).
Proof.
  destruct (zero_comments_yield_placeholder world_empty (PStr (py "XYZ")) []
              (dict [("items", PList [])]%string) eq_refl eq_refl) as [E _].
  rewrite E. reflexivity.
Defined.

(** C10: when the comment query raises, [fetch_comments] logs the error
    and returns the empty list; a run on a video with zero comments
    returns the placeholder list instead, so the two returned values
    differ. *)
Theorem request_error_yields_empty_list
  (w : World) (video_id : pyval) (tr : trace) (e : exn) :
  w tr (comment_threads_request video_id 5) = Raise e ->
  fetch_comments w video_id tr
  = (Return (PList []),
     tr ++ [Called (comment_threads_request video_id 5);
            Log (py "Error fetching comments: ") e])
  /\ forall (w0 : World) (video0 : pyval) (tr0 : trace) (response : pyval),
       w0 tr0 (comment_threads_request video0 5) = Return response ->
       getitem response (py "items") = Return (PList []) ->
       fst (fetch_comments w0 video0 tr0) = Return (PList [no_comments_record])
       /\ fst (fetch_comments w0 video0 tr0) <> fst (fetch_comments w video_id tr).
Proof.
  intros Hw.
  assert (fetch_comments w video_id tr
          = (Return (PList []),
             tr ++ [Called (comment_threads_request video_id 5);
                    Log (py "Error fetching comments: ") e])) as E.
  { rewrite fetch_comments_eq, Hw. cbv beta iota zeta. now rewrite <- app_assoc. }
  split; [exact E|].
  intros w0 video0 tr0 response Hw0 Hi.
  rewrite fetch_comments_eq, Hw0, Hi, E. cbn.
  split; [reflexivity | discriminate].
Qed.

Lemma request_error_yields_empty_list_witness :
  fst (fetch_comments world_down (PStr (py "XYZ")) []) = Return (PList [])
  /\ fst (fetch_comments world_empty (PStr (py "XYZ")) [])
     <> fst (fetch_comments world_down (PStr (py "XYZ")) []).
Proof.
  destruct (request_error_yields_empty_list world_down (PStr (py "XYZ")) []
              (ExternalError (py "quota exceeded")) eq_refl) as [E D].
  split.
  - rewrite E. reflexivity.
  - exact (proj2 (D world_empty (PStr (py "XYZ")) []
                    (dict [("items", PList [])]%string) eq_refl eq_refl)).
Defined.

Lemma record_for_keys (w : World) (comment rec : pyval) :
  record_for w comment rec -> keys_of rec = record_keys.
Proof. intros (a & t & s & st & t1 & t2 & _ & _ & _ & _ & ->). reflexivity. Qed.

Lemma Forall2_in_r {A B} (R : A -> B -> Prop) (l : list A) (l' : list B) (y : B) :
  Forall2 R l l' -> In y l' -> exists x, In x l /\ R x y.
Proof.
  induction 1 as [|x y' l l' HR _ IH]; intros Hin; [destruct Hin|].
  destruct Hin as [<- | Hin].
  - exists x. split; [now left | exact HR].
  - destruct (IH Hin) as (x' & Hx & HR'). exists x'. split; [now right | exact HR'].
Qed.

(** C9: the placeholder record has the two fields [author] and [text]
    with their fixed texts, and neither [summarized_comment] nor
    [sentiment]; every other record [fetch_comments] returns has all
    four fields. *)
Theorem placeholder_has_two_fields
  (w : World) (video_id : pyval) (tr : trace) (recs : list pyval) :
  fst (fetch_comments w video_id tr) = Return (PList recs) ->
  (no_comments_record
   = PDict [(py "author", PStr (py "No comments"));
            (py "text", PStr (py "No comments available."))]
   /\ keys_of no_comments_record = [py "author"; py "text"]
   /\ getitem no_comments_record (py "summarized_comment")
      = Raise (KeyError (PStr (py "summarized_comment")))
   /\ getitem no_comments_record (py "sentiment")
      = Raise (KeyError (PStr (py "sentiment"))))
  /\ forall rec, In rec recs ->
       (rec = no_comments_record /\ recs = [no_comments_record])
       \/ (keys_of rec = record_keys
           /\ (exists v, getitem rec (py "summarized_comment") = Return v)
           /\ (exists v, getitem rec (py "sentiment") = Return v)).
Proof.
  intros H. split; [repeat split|].
  intros rec Hin.
  destruct (fetch_comments_cases w video_id tr)
    as (recs' & tr' & E & _ & [-> | [[-> _] | (resp & items & els & _ & _ & _ & _ & F)]]);
    rewrite E in H; injection H as <-.
  - destruct Hin.
  - left. destruct Hin as [<- | []]. auto.
  - right. destruct (Forall2_in_r _ _ _ _ F Hin) as (c & _ & R).
    destruct R as (a & t & s & st & t1 & t2 & _ & _ & _ & _ & ->).
    split; [reflexivity|]. split; [now exists s | now exists st].
Qed.

Lemma placeholder_has_two_fields_witness :
  fst (fetch_comments world_empty (PStr (py "XYZ")) [])
  = Return (PList [no_comments_record])
  /\ keys_of no_comments_record = [py "author"; py "text"]
  /\ ((no_comments_record = no_comments_record
       /\ [no_comments_record] = [no_comments_record])
      \/ (keys_of no_comments_record = record_keys
          /\ (exists v, getitem no_comments_record (py "summarized_comment") = Return v)
          /\ (exists v, getitem no_comments_record (py "sentiment") = Return v))).
Proof.
  destruct (placeholder_has_two_fields world_empty (PStr (py "XYZ")) []
              [no_comments_record] eq_refl) as [[_ [K _]] R].
  split; [reflexivity|]. split; [exact K|].
  apply R. now left.
Defined.

(** On a non-empty list of readable threads the result has one record
    per thread, in the order of the response. *)
Lemma fetch_comments_on_threads
  (w : World) (video_id : pyval) (tr : trace) (response : pyval)
  (items : list pyval) :
  w tr (comment_threads_request video_id 5) = Return response ->
  getitem response (py "items") = Return (PList items) ->
  items <> [] ->
  Forall readable_thread items ->
  exists recs tr',
    fetch_comments w video_id tr = (Return (PList recs), tr')
    /\ Forall2 (record_for w) items recs.
Proof.
  intros Hw Hi Hne Hread. rewrite fetch_comments_eq, Hw, Hi. cbv zeta.
  assert (truthy (PList items) = true) as -> by (destruct items; [now destruct Hne | reflexivity]).
  cbn [iterate].
  destruct (comments_loop_returns w items Hread []
              (tr ++ [Called (comment_threads_request video_id 5)]))
    as (l & tr2 & Hl).
  rewrite Hl. destruct (comments_loop_inv _ _ _ _ _ _ Hl) as (recs & -> & F).
  now exists recs, tr2.
Qed.

Lemma Forall_firstn {A} (P : A -> Prop) (n : nat) (l : list A) :
  Forall P l -> Forall P (firstn n l).
Proof.
  intros H. revert n. induction H as [|x l Hx _ IH]; intros [|n]; simpl;
    constructor; auto.
Qed.

Lemma top_level_field_path (comment : pyval) (field : string) (value : pyval) :
  top_level_field comment field = Return value ->
  thread_field comment (py field) value.
Proof.
  unfold top_level_field, thread_field, and_then.
  destruct (getitem comment (py "snippet")) as [a|] eqn:Ea; [|discriminate].
  destruct (getitem a (py "topLevelComment")) as [b|] eqn:Eb; [|discriminate].
  destruct (getitem b (py "snippet")) as [c|] eqn:Ec; [|discriminate].
  intros H. now exists a, b, c.
Qed.

Lemma Forall2_weaken {A B} (R R' : A -> B -> Prop) (l : list A) (l' : list B) :
  (forall x y, R x y -> R' x y) -> Forall2 R l l' -> Forall2 R' l l'.
Proof. intros H F. induction F; constructor; auto. Qed.

(** The record the loop appends, field by field. *)
Lemma record_for_filled (w : World) (comment rec : pyval) :
  record_for w comment rec -> filled_record w comment rec.
Proof.
  intros (author & text & sm & st & tr1 & tr2 & Ha & Ht & Hs & Hst & ->).
  rewrite summarize_text_value in Hs. injection Hs as <-.
  rewrite analyze_sentiment_value in Hst. injection Hst as <-.
  exists author, text, tr1, tr2.
  split; [exact (top_level_field_path _ _ _ Ha)|].
  split; [exact (top_level_field_path _ _ _ Ht) | reflexivity].
Qed.

Lemma filled_record_unannotated (w : World) (comment rec : pyval) :
  pipelines_down w -> filled_record w comment rec -> unannotated_record comment rec.
Proof.
  intros [Hs Hst] (author & text & tr1 & tr2 & Ha & Ht & ->).
  exists author, text. split; [exact Ha|]. split; [exact Ht|].
  destruct (Hs tr1 text [(py "max_length", PInt 50); (py "min_length", PInt 25);
                         (py "do_sample", PBool false)]) as [e ->].
  destruct (Hst tr2 text) as [e' ->]. reflexivity.
Qed.

(** C7: [summarize_text] and [analyze_sentiment] always return: the
    unwrapped pipeline result, or [None] when the pipeline call or the
    unwrapping raises.  Whatever they return, [fetch_comments] on
    readable threads appends one record per thread, in order, and each
    record is the dict whose [author] and [text] are those of the thread
    and whose [summarized_comment] and [sentiment] are the unwrapped
    answers of the pipelines or [None]; with both pipelines failing on
    every text, every record still has its author and its text, beside
    two [None]s. *)
Theorem annotation_failure_is_contained (w : World) :
  (forall text tr,
     fst (summarize_text w text tr)
     = Return (value_or_none
                 (and_then (w tr (summarizer_request text)) summary_text_of)))
  /\ (forall text tr,
        fst (analyze_sentiment w text tr)
        = Return (value_or_none
                    (and_then (w tr (SentimentAnalyzer text)) first_label_of)))
  /\ (forall video_id tr response items,
        w tr (comment_threads_request video_id 5) = Return response ->
        getitem response (py "items") = Return (PList items) ->
        items <> [] ->
        Forall readable_thread items ->
        exists recs,
          fst (fetch_comments w video_id tr) = Return (PList recs)
          /\ length recs = length items
          /\ Forall2 (record_for w) items recs
          /\ Forall2 (filled_record w) items recs
          /\ (pipelines_down w -> Forall2 unannotated_record items recs)).
Proof.
  split; [exact (summarize_text_value w)|].
  split; [exact (analyze_sentiment_value w)|].
  intros video_id tr response items Hw Hi Hne Hread.
  destruct (fetch_comments_on_threads w video_id tr response items Hw Hi Hne Hread)
    as (recs & tr' & E & F).
  assert (Forall2 (filled_record w) items recs) as G
    by exact (Forall2_weaken _ _ _ _ (record_for_filled w) F).
  exists recs. rewrite E. split; [reflexivity|].
  split; [symmetry; exact (Forall2_length F)|].
  split; [exact F|]. split; [exact G|].
  intros Hdown.
  exact (Forall2_weaken _ _ _ _
           (fun c r => filled_record_unannotated w c r Hdown) G).
Qed.

Lemma thread_readable (author text : string) : readable_thread (thread author text).
Proof. exists (PStr (py author)), (PStr (py text)). split; reflexivity. Qed.

Lemma world_mute_down (threads : list pyval) : pipelines_down (world_mute threads).
Proof. split; intros; eexists; reflexivity. Qed.

Lemma annotation_failure_is_contained_witness :
  fst (summarize_text (world_mute two_threads) (PStr (py "one")) []) = Return PNone
  /\ fst (fetch_comments (world_mute two_threads) (PStr (py "XYZ")) [])
     = Return (PList
         [PDict [(py "author", PStr (py "ann")); (py "text", PStr (py "one"));
                 (py "summarized_comment", PNone); (py "sentiment", PNone)];
          PDict [(py "author", PStr (py "bob")); (py "text", PStr (py "two"));
                 (py "summarized_comment", PNone); (py "sentiment", PNone)]])
  /\ exists recs,
       fst (fetch_comments (world_mute two_threads) (PStr (py "XYZ")) [])
       = Return (PList recs)
       /\ length recs = 2
       /\ Forall2 (filled_record (world_mute two_threads)) two_threads recs
       /\ Forall2 unannotated_record two_threads recs.
Proof.
  destruct (annotation_failure_is_contained (world_mute two_threads))
    as (S & _ & C).
  split; [rewrite S; reflexivity|]. split; [reflexivity|].
  assert (Forall readable_thread two_threads) as R
    by (repeat constructor; apply thread_readable).
  destruct (C (PStr (py "XYZ")) [] (dict [("items", PList two_threads)]%string)
              two_threads eq_refl eq_refl ltac:(discriminate) R)
    as (recs & E & L & _ & G & U).
  exists recs. split; [exact E|]. split; [exact L|]. split; [exact G|].
  exact (U (world_mute_down two_threads)).
Defined.

(** C5: [fetch_comments] always returns a list, asks the platform for at
    most 5 threads, and builds its records in the order of the items it
    receives.  A platform that honours [maxResults] gets at most 5
    records back, exactly 5 when the video has more than 5 comments:
    the records of its first 5 threads, in its order. *)
Theorem fetch_comments_capped_in_order
  (w : World) (video_id : pyval) (tr : trace) :
  exists recs tr',
    fetch_comments w video_id tr = (Return (PList recs), tr')
    /\ (exists later,
          tr' = tr ++ Called (comment_threads_request video_id 5) :: later)
    /\ (forall response items,
          w tr (comment_threads_request video_id 5) = Return response ->
          getitem response (py "items") = Return (PList items) ->
          (recs = []
           \/ (items = [] /\ recs = [no_comments_record])
           \/ Forall2 (record_for w) items recs)
          /\ (length items <= 5 -> length recs <= 5))
    /\ (forall threads,
          platform_serves w video_id threads ->
          Forall readable_thread threads ->
          length recs <= 5
          /\ (threads <> [] -> Forall2 (record_for w) (firstn 5 threads) recs)
          /\ (5 < length threads -> length recs = 5)).
Proof.
  destruct (fetch_comments_cases w video_id tr)
    as (recs & tr' & E & Hlater & Hcases).
  exists recs, tr'. split; [exact E|]. split; [exact Hlater|]. split.
  - intros response items Hw Hi.
    destruct Hcases as [-> | [[-> (r & i & Hw' & Hi' & Ht)]
                             | (r & i & els & Hw' & Hi' & Ht & Hit & F)]].
    + split; [now left | simpl; lia].
    + rewrite Hw in Hw'. injection Hw' as <-.
      rewrite Hi in Hi'. injection Hi' as <-.
      split; [|simpl; lia]. right. left.
      split; [|reflexivity]. destruct items; [reflexivity | discriminate].
    + rewrite Hw in Hw'. injection Hw' as <-.
      rewrite Hi in Hi'. injection Hi' as <-.
      injection Hit as <-.
      split; [now right; right|]. rewrite <- (Forall2_length F). auto.
  - intros threads Hserve Hread.
    destruct (Hserve tr 5) as (response & Hw & Hi).
    change (Z.of_nat 5) with 5%Z in Hw.
    destruct threads as [|t0 threads'].
    + rewrite fetch_comments_eq, Hw, Hi in E. injection E as <- _.
      split; [simpl; lia|]. split; [now intros [] | simpl; lia].
    + set (threads := t0 :: threads') in *.
      destruct (fetch_comments_on_threads w video_id tr response
                  (firstn 5 threads) Hw Hi ltac:(discriminate)
                  (Forall_firstn _ 5 _ Hread))
        as (recs0 & tr0 & E0 & F).
      rewrite E0 in E. injection E as <- _.
      pose proof (Forall2_length F) as L. rewrite length_firstn in L.
      split; [lia|]. split; [intros _; exact F | lia].
Qed.

Lemma world_with_serves (threads : list pyval) (video_id : pyval) :
  platform_serves (world_with threads) video_id threads.
Proof.
  intros tr n.
  exists (dict [("items", PList (firstn n threads))]%string).
  split; [|reflexivity].
  unfold world_with, comment_threads_request.
  change (max_results_of _) with (Z.to_nat (Z.of_nat n)).
  now rewrite Nat2Z.id.
Qed.

Lemma fetch_comments_capped_in_order_witness :
  exists recs,
    fst (fetch_comments (world_with seven_threads) (PStr (py "XYZ")) [])
    = Return (PList recs)
    /\ length recs = 5
    /\ Forall2 (record_for (world_with seven_threads))
         (firstn 5 seven_threads) recs.
Proof.
  destruct (fetch_comments_capped_in_order (world_with seven_threads)
              (PStr (py "XYZ")) [])
    as (recs & tr' & E & _ & _ & P).
  assert (Forall readable_thread seven_threads) as R
    by (repeat constructor; apply thread_readable).
  destruct (P seven_threads (world_with_serves seven_threads (PStr (py "XYZ"))) R)
    as (_ & O & L).
  exists recs. rewrite E. split; [reflexivity|]. split.
  - apply L. simpl. lia.
  - apply O. discriminate.
Defined.

(* ================================================================= *)
(** ** The keys of the other URL shapes *)

Lemma contains_longer (marker sub pad : str) (s : str) :
  marker = pad ++ sub -> contains marker s = true -> contains sub s = true.
Proof.
  intros -> H. apply contains_iff in H as (a & b & ->). apply contains_iff.
  exists (a ++ pad), b. now rewrite <- !app_assoc.
Qed.

Lemma trimmed_keeps_absence (sub s t : str) :
  trimmed_of s t -> contains sub s = false -> contains sub t = false.
Proof.
  intros [(l & r & -> & _) _] H. destruct (contains sub t) eqn:E; [|reflexivity].
  apply contains_iff in E as (a & b & ->).
  assert (contains sub (l ++ (a ++ sub ++ b) ++ r) = true) as X.
  { apply contains_iff. exists (l ++ a), (b ++ r). now rewrite <- !app_assoc. }
  congruence.
Qed.

(** X1: for a URL with the video-watch marker the id handed to the video
    lookup is the text between the last [v=] of the URL and the next
    [&] (or the end of the URL). *)
Theorem watch_url_key_follows_last_v (w : World) (url : str) (tr : trace) :
  contains watch_marker url = true ->
  exists pre tail,
    url = pre ++ py "v=" ++ tail
    /\ contains (py "v=") tail = false
    /\ contains (py "&") (video_key url) = false
    /\ (tail = video_key url
        \/ exists more, tail = video_key url ++ py "&" ++ more)
    /\ resolve_channel_id w url tr
       = get_channel_from_video w (PStr (video_key url)) tr.
Proof.
  intros H.
  assert (contains (py "v=") url = true) as Hv
    by exact (contains_longer watch_marker (py "v=") (py "youtube.com/watch?")
                url eq_refl H).
  destruct (video_key_cut url Hv) as (pre & tail & E & Hno & Hamp & Hcut).
  exists pre, tail. repeat (split; [assumption|]).
  now apply resolve_on_watch.
Qed.

Lemma watch_url_key_follows_last_v_witness :
  exists pre tail,
    url_watch = pre ++ py "v=" ++ tail
    /\ contains (py "v=") tail = false
    /\ contains (py "&") (video_key url_watch) = false
    /\ (tail = video_key url_watch
        \/ exists more, tail = video_key url_watch ++ py "&" ++ more)
    /\ resolve_channel_id world_ok url_watch []
       = get_channel_from_video world_ok (PStr (video_key url_watch)) [].
Proof. exact (watch_url_key_follows_last_v world_ok url_watch [] eq_refl). Defined.

(** The cut [partition] makes is the leftmost one. *)
Lemma partition_leftmost (sep s a b : str) :
  partition sep s = Some (a, b) -> leftmost_cut sep a b.
Proof.
  revert a b; induction s as [|c s IH]; intros a b; cbn [partition].
  - destruct (startswith sep []); [|discriminate].
    intros [= <- _] a1 a2 E Hne. now destruct a1, a2.
  - destruct (startswith sep (c :: s)) eqn:E.
    + intros [= <- _] a1 a2 E' Hne. now destruct a1, a2.
    + destruct (partition sep s) as [[a' b']|] eqn:P; [|discriminate].
      intros [= <- <-] a1 a2 E' Hne.
      destruct (partition_some sep s a' b' P) as [Hs _].
      destruct a1 as [|x a1]; simpl in E'.
      * subst a2. simpl. now rewrite <- Hs.
      * injection E' as _ E'. exact (IH a' b' eq_refl a1 a2 E' Hne).
Qed.

Lemma leftmost_partition (sep a rest : str) :
  leftmost_cut sep a rest -> partition sep (a ++ sep ++ rest) = Some (a, rest).
Proof.
  induction a as [|c a IH]; intros H.
  - destruct sep as [|x sep]; [now destruct rest|].
    change ([] ++ (x :: sep) ++ rest) with (x :: (sep ++ rest)).
    cbn [partition].
    assert (startswith (x :: sep) (x :: sep ++ rest) = true) as ->
      by (apply startswith_iff; now exists rest).
    change (x :: sep ++ rest) with ((x :: sep) ++ rest).
    now rewrite skipn_length_app.
  - assert (startswith sep ((c :: a) ++ sep ++ rest) = false) as E
      by (apply (H [] (c :: a)); [reflexivity | discriminate]).
    simpl app in *. cbn [partition]. rewrite E.
    rewrite IH; [reflexivity|].
    intros a1 a2 Ea Hne. apply (H (c :: a1) a2); [now rewrite Ea | exact Hne].
Qed.

(** [split] is the scan, and the scan leaves no choice. *)
Lemma split_scanned (sep s : str) : sep <> [] -> scanned sep s (split sep s).
Proof.
  intros Hne. remember (length s) as n eqn:Hn.
  assert (length s <= n) as L by lia. clear Hn. revert s L.
  induction n as [|n IH]; intros s L; rewrite split_eq by assumption;
    destruct (partition sep s) as [[a b]|] eqn:P;
    try (apply scanned_last; now apply partition_none).
  - pose proof (partition_shorter _ _ _ _ Hne P). lia.
  - pose proof (partition_shorter _ _ _ _ Hne P) as Lb.
    pose proof (partition_leftmost _ _ _ _ P) as Hleft.
    apply partition_some in P as [-> _].
    apply scanned_cut; [exact Hleft | apply IH; lia].
Qed.

Lemma scanned_is_split (sep s : str) (pieces : list str) :
  sep <> [] -> scanned sep s pieces -> pieces = split sep s.
Proof.
  intros Hne H. induction H as [s Hno | a rest pieces Hleft _ IH].
  - now rewrite split_absent.
  - rewrite split_eq by assumption.
    now rewrite (leftmost_partition _ _ _ Hleft), IH.
Qed.

(** X2: for a URL with the user-path marker (and neither the watch nor
    the channel marker) the URL is cut at [/user/] from the left, each
    cut at the leftmost [/user/] behind the previous one; the name
    handed to the username lookup is the last piece of that scan,
    without its surrounding whitespace.  The scan leaves at least two
    pieces, and every list of pieces that meets its description gives
    that same name. *)
Theorem user_url_key_is_last_scanned_piece (w : World) (url : str) (tr : trace) :
  contains watch_marker url = false ->
  contains channel_marker url = false ->
  contains user_marker url = true ->
  (exists pieces, scanned (py "/user/") url pieces /\ 2 <= length pieces)
  /\ forall pieces,
       scanned (py "/user/") url pieces ->
       trimmed_of (last pieces []) (user_key url)
       /\ user_key url = strip (last pieces [])
       /\ resolve_channel_id w url tr
          = get_channel_from_username w (PStr (strip (last pieces []))) tr.
Proof.
  intros Hw Hc Hu.
  assert (py "/user/" <> []) as Hne by discriminate.
  split.
  - exists (split (py "/user/") url). split; [now apply split_scanned|].
    assert (contains (py "/user/") url = true) as Hsep
      by exact (contains_longer user_marker (py "/user/") (py "youtube.com")
                  url eq_refl Hu).
    rewrite split_eq by assumption.
    destruct (partition (py "/user/") url) as [[a b]|] eqn:P.
    + simpl. pose proof (split_nonempty (py "/user/") b).
      destruct (split (py "/user/") b); [congruence | simpl; lia].
    + apply partition_none in P. congruence.
  - intros pieces Hscan.
    rewrite (scanned_is_split _ _ _ Hne Hscan).
    split; [apply strip_trimmed|]. split; [reflexivity|].
    now apply resolve_on_user.
Qed.

Lemma user_url_key_is_last_scanned_piece_witness :
  user_key url_user_twice = py "user/"
  /\ exists pieces,
       scanned (py "/user/") url_user_twice pieces
       /\ 2 <= length pieces
       /\ user_key url_user_twice = strip (last pieces [])
       /\ resolve_channel_id world_ok url_user_twice []
          = get_channel_from_username world_ok (PStr (strip (last pieces []))) [].
Proof.
  split; [reflexivity|].
  destruct (user_url_key_is_last_scanned_piece world_ok url_user_twice []
              eq_refl eq_refl eq_refl) as [(pieces & S & L) U].
  destruct (U pieces S) as (_ & K & R).
  exists pieces. split; [exact S|]. split; [exact L|]. split; [exact K | exact R].
Defined.

(** X3: for a URL with the handle marker (and none of the three others)
    the handle is the text after the last [@] of the URL, trimmed; it
    holds no [@] itself, and the handle lookup is run on it. *)
Theorem handle_url_key_follows_last_at (w : World) (url : str) (tr : trace) :
  contains watch_marker url = false ->
  contains channel_marker url = false ->
  contains user_marker url = false ->
  contains handle_marker url = true ->
  exists pre segment,
    url = pre ++ py "@" ++ segment
    /\ contains (py "@") segment = false
    /\ trimmed_of segment (handle_key url)
    /\ contains (py "@") (handle_key url) = false
    /\ resolve_channel_id w url tr
       = get_channel_from_handle w (handle_key url) tr.
Proof.
  intros Hw Hc Hu Hh.
  assert (contains (py "@") url = true) as Hsep
    by exact (contains_longer handle_marker (py "@") (py "youtube.com/")
                url eq_refl Hh).
  destruct (last_piece_split (py "@") url ltac:(discriminate) Hsep)
    as [Hno [pre Hpre]].
  exists pre, (last_piece (split (py "@") url)).
  split; [exact Hpre|]. split; [exact Hno|].
  split; [apply strip_trimmed|].
  split; [exact (trimmed_keeps_absence _ _ _ (strip_trimmed _) Hno)|].
  now apply resolve_on_handle.
Qed.

Lemma handle_url_key_follows_last_at_witness :
  handle_key url_handle = py "one"
  /\ exists pre segment,
       url_handle = pre ++ py "@" ++ segment
       /\ contains (py "@") segment = false
       /\ trimmed_of segment (handle_key url_handle)
       /\ contains (py "@") (handle_key url_handle) = false
       /\ resolve_channel_id world_ok url_handle []
          = get_channel_from_handle world_ok (handle_key url_handle) [].
Proof.
  split; [reflexivity|].
  exact (handle_url_key_follows_last_at world_ok url_handle []
           eq_refl eq_refl eq_refl eq_refl).
Defined.

(* ================================================================= *)
(** ** One request per lookup *)

Lemma calls_app (tr later : trace) : calls (tr ++ later) = calls tr ++ calls later.
Proof. unfold calls. apply flat_map_app. Qed.

(** Split on every test and every step that can raise, outermost first. *)
Ltac split_steps :=
  repeat match goal with
         | |- context [match ?x with _ => _ end] =>
             lazymatch x with
             | context [match _ with _ => _ end] => fail
             | _ => destruct x eqn:?
             end
         end.

Ltac close_calls_once :=
  solve [ left; eexists; reflexivity
        | right; eexists; rewrite <- app_assoc; reflexivity ].

Section OneRequest.

Variables (w : World) (tr : trace).

Lemma video_lookup_calls_once (video_id : pyval) :
  calls_once tr (videos_request video_id)
    (py "Error fetching channel ID from video: ")
    (get_channel_from_video w video_id).
Proof.
  unfold calls_once, get_channel_from_video. run_monad.
  split_steps; close_calls_once.
Qed.

Lemma username_lookup_calls_once (username : pyval) :
  calls_once tr (username_request username)
    (py "Error fetching channel ID from username: ")
    (get_channel_from_username w username).
Proof.
  unfold calls_once, get_channel_from_username. run_monad.
  split_steps; close_calls_once.
Qed.

Lemma handle_lookup_calls_once (handle : str) :
  calls_once tr (handle_request handle)
    (py "Error fetching channel ID from handle: ")
    (get_channel_from_handle w handle).
Proof.
  unfold calls_once, get_channel_from_handle. run_monad.
  split_steps; close_calls_once.
Qed.

End OneRequest.

Lemma calls_once_count (tr : trace) (req : request) (prefix : str)
  (lookup : M pyval) :
  calls_once tr req prefix lookup ->
  exists v later, lookup tr = (Return v, tr ++ later) /\ calls later = [req].
Proof.
  intros [[v E] | [e E]].
  - now exists v, [Called req].
  - now exists PNone, [Called req; Log prefix e].
Qed.

(** X4: each of the three lookups sends its request exactly once and
    never again: the trace gains that one call, followed by at most one
    diagnostic line, and after a diagnostic the result is [None]. *)
Theorem lookups_send_one_request
  (w : World) (tr : trace) (video_id username : pyval) (handle : str) :
  calls_once tr (videos_request video_id)
    (py "Error fetching channel ID from video: ")
    (get_channel_from_video w video_id)
  /\ calls_once tr (username_request username)
       (py "Error fetching channel ID from username: ")
       (get_channel_from_username w username)
  /\ calls_once tr (handle_request handle)
       (py "Error fetching channel ID from handle: ")
       (get_channel_from_handle w handle).
Proof.
  split; [apply video_lookup_calls_once|].
  split; [apply username_lookup_calls_once | apply handle_lookup_calls_once].
Qed.

(** X5: whatever the URL and the platform, [resolve_channel_id] returns
    a value and makes at most one external call; on the channel path
    and on an unrecognized URL it makes none. *)
Theorem resolve_makes_at_most_one_call (w : World) (url : str) (tr : trace) :
  exists v later,
    resolve_channel_id w url tr = (Return v, tr ++ later)
    /\ length (calls later) <= 1
    /\ (contains watch_marker url = false ->
        contains channel_marker url = true
        \/ (contains user_marker url = false
            /\ contains handle_marker url = false) ->
        calls later = []).
Proof.
  destruct (contains watch_marker url) eqn:Hw.
  { rewrite (resolve_on_watch w url tr Hw).
    destruct (calls_once_count _ _ _ _
                (video_lookup_calls_once w tr (PStr (video_key url))))
      as (v & later & -> & C).
    exists v, later. rewrite C. split; [reflexivity|].
    split; [simpl; lia | discriminate]. }
  destruct (contains channel_marker url) eqn:Hc.
  { rewrite (resolve_on_channel w url tr Hw Hc).
    exists (PStr (channel_key url)), []. rewrite app_nil_r.
    split; [reflexivity|]. split; [simpl; lia | reflexivity]. }
  destruct (contains user_marker url) eqn:Hu.
  { rewrite (resolve_on_user w url tr Hw Hc Hu).
    destruct (calls_once_count _ _ _ _
                (username_lookup_calls_once w tr (PStr (user_key url))))
      as (v & later & -> & C).
    exists v, later. rewrite C. split; [reflexivity|].
    split; [simpl; lia|]. intros _ [X | [X _]]; discriminate. }
  destruct (contains handle_marker url) eqn:Hh.
  { rewrite (resolve_on_handle w url tr Hw Hc Hu Hh).
    destruct (calls_once_count _ _ _ _
                (handle_lookup_calls_once w tr (handle_key url)))
      as (v & later & -> & C).
    exists v, later. rewrite C. split; [reflexivity|].
    split; [simpl; lia|]. intros _ [X | [_ X]]; discriminate. }
  rewrite (resolve_on_other w url tr Hw Hc Hu Hh).
  eexists PNone, _. split; [reflexivity|]. split; [simpl; lia | reflexivity].
Qed.

Lemma resolve_makes_at_most_one_call_witness :
  exists v later,
    resolve_channel_id world_ok url_channel [] = (Return v, [] ++ later)
    /\ length (calls later) <= 1
    /\ calls later = [].
Proof.
  destruct (resolve_makes_at_most_one_call world_ok url_channel [])
    as (v & later & E & L & Z).
  exists v, later. split; [exact E|]. split; [exact L|].
  apply Z; [reflexivity | left; reflexivity].
Defined.

(** The test and the [items[0]] of a non-empty list. *)
Ltac first_item_steps first rest :=
  change (truthy (PList (first :: rest))) with true; cbv beta iota;
  change (getindex (PList (first :: rest)) 0) with (@Return pyval first);
  cbv beta iota.

(** X6: on a response whose [items] list starts with a well-formed
    item, each lookup returns the channel id of that first item (its
    [snippet.channelId], or its [id] for the username lookup), whatever
    follows it in the list, and prints nothing. *)
Theorem lookups_return_first_item
  (w : World) (tr : trace) (response first id : pyval) (rest : list pyval) :
  getitem response (py "items") = Return (PList (first :: rest)) ->
  (forall video_id,
     w tr (videos_request video_id) = Return response ->
     snippet_channel_id first = Return id ->
     get_channel_from_video w video_id tr
     = (Return id, tr ++ [Called (videos_request video_id)]))
  /\ (forall username,
        w tr (username_request username) = Return response ->
        getitem first (py "id") = Return id ->
        get_channel_from_username w username tr
        = (Return id, tr ++ [Called (username_request username)]))
  /\ (forall handle,
        w tr (handle_request handle) = Return response ->
        snippet_channel_id first = Return id ->
        get_channel_from_handle w handle tr
        = (Return id, tr ++ [Called (handle_request handle)])).
Proof.
  intros Hi. unfold snippet_channel_id. split; [|split].
  - intros video_id Hw Hid. unfold get_channel_from_video. run_monad.
    rewrite Hw. cbv beta iota. rewrite Hi. first_item_steps first rest.
    unfold and_then in Hid.
    destruct (getitem first (py "snippet")) as [s|]; [|discriminate].
    cbv beta iota. now rewrite Hid.
  - intros username Hw Hid. unfold get_channel_from_username. run_monad.
    rewrite Hw. cbv beta iota. rewrite Hi. first_item_steps first rest.
    now rewrite Hid.
  - intros handle Hw Hid. unfold get_channel_from_handle. run_monad.
    rewrite Hw. cbv beta iota. rewrite Hi. first_item_steps first rest.
    unfold and_then in Hid.
    destruct (getitem first (py "snippet")) as [s|]; [|discriminate].
    cbv beta iota. now rewrite Hid.
Qed.

Lemma lookups_return_first_item_witness :
  get_channel_from_video world_ok (PStr (py "vid1")) []
  = (Return (PStr (py "UC1")), [] ++ [Called (videos_request (PStr (py "vid1")))])
  /\ get_channel_from_handle world_ok (py "one") []
     = (Return (PStr (py "UC1")), [] ++ [Called (handle_request (py "one"))]).
Proof.
  destruct (lookups_return_first_item world_ok []
              (dict [("items", PList [video_hit])]%string) video_hit
              (PStr (py "UC1")) [] eq_refl) as (V & _ & H).
  split.
  - exact (V (PStr (py "vid1")) eq_refl eq_refl).
  - exact (H (py "one") eq_refl eq_refl).
Defined.

(* ================================================================= *)
(** ** The view *)

Lemma fetch_channel_data_total (w : World) (channel_id : pyval) :
  never_raises (fetch_channel_data w channel_id).
Proof. unfold fetch_channel_data. auto with total. Qed.

Lemma fetch_latest_video_details_total (w : World) (channel_id : pyval) :
  never_raises (fetch_latest_video_details w channel_id).
Proof. unfold fetch_latest_video_details. auto with total. Qed.



(** [index] on a POST whose form holds the URL. *)
Lemma index_post (w : World) (form : list (str * str)) (url : str) (tr : trace) :
  form_get form (py "url") = Return url ->
  index w (py "POST") form tr =
  (channel_id <- resolve_channel_id w url ;;
   if truthy channel_id then
     channel_data <- fetch_channel_data w channel_id ;;
     video_data <- fetch_latest_video_details w channel_id ;;
     ret (render_template (py "result.html")
            [(py "channel_data", channel_data); (py "video_data", video_data)])
   else
     ret (render_template (py "index.html")
            [(py "error", PStr (py "Invalid YouTube URL"))])) tr.
Proof.
  intros Hform. unfold index.
  change (str_eqb (py "POST") (py "POST")) with true. cbv iota.
  unfold bind at 1. unfold lift. now rewrite Hform.
Qed.



Lemma form_get_raises (form : list (str * str)) (k : str) (e : exn) :
  form_get form k = Raise e -> e = KeyError (PStr k).
Proof.
  induction form as [|[k' v] form IH]; simpl.
  - now intros [= <-].
  - destruct (str_eqb k' k); [discriminate | exact IH].
Qed.

(** X8: [index] either raises the [KeyError] of a missing [url] field,
    on a POST, before anything is called or printed, or it goes on to
    one of its three [render_template] calls: no exception of the
    resolver or of the two fetches reaches it.  A request of another
    method selects [index.html] with no context and calls nothing. *)
Theorem index_reaches_a_render_call_or_lacks_url
  (w : World) (method : str) (form : list (str * str)) (tr : trace) :
  (str_eqb method (py "POST") = false ->
     index w method form tr
     = (Return (render_template (py "index.html") []), tr))
  /\ (forall e,
        str_eqb method (py "POST") = true ->
        form_get form (py "url") = Raise e ->
        e = KeyError (PStr (py "url"))
        /\ index w method form tr = (Raise e, tr))
  /\ (forall url,
        form_get form (py "url") = Return url ->
        exists page tr',
          index w method form tr = (Return page, tr')
          /\ selected_page page).
Proof.
  split; [|split].
  - intros Hm. unfold index. now rewrite Hm.
  - intros e Hm Hform. split; [exact (form_get_raises _ _ _ Hform)|].
    unfold index. rewrite Hm. unfold bind at 1. unfold lift. now rewrite Hform.
  - intros url Hform. unfold index, selected_page.
    destruct (str_eqb method (py "POST")); [|eexists _, _; split; [reflexivity | now left]].
    unfold bind at 1. unfold lift. rewrite Hform.
    unfold bind.
    destruct (resolve_channel_id_total w url tr) as (cid & t1 & ->).
    destruct (truthy cid);
      [|eexists _, _; split; [reflexivity | right; now left]].
    destruct (fetch_channel_data_total w cid t1) as (cd & t2 & ->).
    destruct (fetch_latest_video_details_total w cid t2) as (vd & t3 & ->).
    eexists _, _. split; [reflexivity|]. right. right. now exists cd, vd.
Qed.

Lemma index_reaches_a_render_call_or_lacks_url_witness :
  index world_ok (py "GET") [] []
  = (Return (render_template (py "index.html") []), [])
  /\ index world_ok (py "POST") [(py "link", url_channel)] []
     = (Raise (KeyError (PStr (py "url"))), [])
  /\ exists page tr',
       index world_ok (py "POST") [(py "url", url_channel)] []
       = (Return page, tr')
       /\ selected_page page.
Proof.
  split; [|split].
  - exact (proj1 (index_reaches_a_render_call_or_lacks_url world_ok
                    (py "GET") [] []) eq_refl).
  - exact (proj2 (proj1 (proj2 (index_reaches_a_render_call_or_lacks_url
                                  world_ok (py "POST")
                                  [(py "link", url_channel)] []))
                    (KeyError (PStr (py "url"))) eq_refl eq_refl)).
  - exact (proj2 (proj2 (index_reaches_a_render_call_or_lacks_url world_ok
                           (py "POST") [(py "url", url_channel)] []))
             url_channel eq_refl).
Defined.

(** X9: once the URL resolves to a truthy channel id, [index] renders
    [result.html] with the values of [fetch_channel_data] and of
    [fetch_latest_video_details], run in that order on the resolved id;
    it does so whatever the two return, [None] included. *)
Theorem index_renders_result_for_resolved_channel
  (w : World) (form : list (str * str)) (url : str) (tr t1 : trace)
  (channel_id : pyval) :
  form_get form (py "url") = Return url ->
  resolve_channel_id w url tr = (Return channel_id, t1) ->
  truthy channel_id = true ->
  exists channel_data t2 video_data t3,
    fetch_channel_data w channel_id t1 = (Return channel_data, t2)
    /\ fetch_latest_video_details w channel_id t2 = (Return video_data, t3)
    /\ index w (py "POST") form tr
       = (Return (render_template (py "result.html")
                    [(py "channel_data", channel_data);
                     (py "video_data", video_data)]), t3).
Proof.
  intros Hform R Ht.
  destruct (fetch_channel_data_total w channel_id t1) as (cd & t2 & E1).
  destruct (fetch_latest_video_details_total w channel_id t2) as (vd & t3 & E2).
  exists cd, t2, vd, t3. split; [exact E1|]. split; [exact E2|].
  rewrite (index_post w form url tr Hform). unfold bind.
  now rewrite R, Ht, E1, E2.
Qed.

Lemma index_renders_result_for_resolved_channel_witness :
  fetch_channel_data world_down (PStr (py "UC123")) [] 
  = (Return PNone,
     [Called (channel_request (PStr (py "UC123")));
      Log (py "Error fetching channel data: ")
          (ExternalError (py "quota exceeded"))])
  /\ exists channel_data t2 video_data t3,
       fetch_channel_data world_down (PStr (py "UC123")) []
       = (Return channel_data, t2)
       /\ fetch_latest_video_details world_down (PStr (py "UC123")) t2
          = (Return video_data, t3)
       /\ index world_down (py "POST") [(py "url", url_channel)] []
          = (Return (render_template (py "result.html")
                       [(py "channel_data", channel_data);
                        (py "video_data", video_data)]), t3).
Proof.
  split; [reflexivity|].
  exact (index_renders_result_for_resolved_channel world_down
           [(py "url", url_channel)] url_channel [] [] (PStr (py "UC123"))
           eq_refl eq_refl eq_refl).
Defined.

(* ================================================================= *)
(** ** Channel profile *)

Ltac feed H := rewrite H; cbv beta iota.

Ltac count_calls :=
  rewrite ?calls_app; simpl; rewrite ?app_nil_r; reflexivity.

(** X10: [fetch_channel_data] never raises and sends exactly one
    request, the [channels] query for the id; it returns [None] or a
    record with exactly the four keys [title], [description],
    [subscribers] and [views]. *)
Theorem channel_profile_is_none_or_complete
  (w : World) (channel_id : pyval) (tr : trace) :
  exists v tr',
    fetch_channel_data w channel_id tr = (Return v, tr')
    /\ (v = PNone \/ keys_of v = profile_keys)
    /\ calls tr' = calls tr ++ [channel_request channel_id].
Proof.
  unfold fetch_channel_data. run_monad.
  split_steps; eexists _, _;
    (split; [reflexivity|]);
    (split; [first [left; reflexivity | right; reflexivity] | count_calls]).
Qed.

(** X11: when the first item of the response has its title, its
    description and both counters, the profile holds exactly these four
    values; later items are ignored. *)
Theorem channel_profile_reads_first_item
  (w : World) (channel_id : pyval) (tr : trace)
  (response first snippet statistics title description subscribers views : pyval)
  (rest : list pyval) :
  w tr (channel_request channel_id) = Return response ->
  getitem response (py "items") = Return (PList (first :: rest)) ->
  getitem first (py "snippet") = Return snippet ->
  getitem snippet (py "title") = Return title ->
  getitem snippet (py "description") = Return description ->
  getitem first (py "statistics") = Return statistics ->
  getitem statistics (py "subscriberCount") = Return subscribers ->
  getitem statistics (py "viewCount") = Return views ->
  fetch_channel_data w channel_id tr
  = (Return (dict [("title", title); ("description", description);
                   ("subscribers", subscribers); ("views", views)]%string),
     tr ++ [Called (channel_request channel_id)]).
Proof.
  intros Hw Hi Hsn Ht Hd Hst Hsub Hv.
  unfold fetch_channel_data. run_monad.
  change (w tr (channel_request channel_id) = Return response) in Hw.
  unfold channel_request in Hw.
  feed Hw. feed Hi. first_item_steps first rest.
  feed Hsn. feed Ht. feed Hd. feed Hst. feed Hsub. feed Hv. reflexivity.
Qed.

Lemma channel_profile_reads_first_item_witness :
  fetch_channel_data world_ok (PStr (py "UC1")) []
  = (Return (dict [("title", PStr (py "Channel"));
                   ("description", PStr (py "About"));
                   ("subscribers", PStr (py "10"));
                   ("views", PStr (py "2000"))]%string),
     [] ++ [Called (channel_request (PStr (py "UC1")))]).
Proof.
  exact (channel_profile_reads_first_item world_ok (PStr (py "UC1")) []
           (dict [("items", PList [channel_full])]%string) channel_full
           (dict [("title", PStr (py "Channel"));
                  ("description", PStr (py "About"))]%string)
           (dict [("subscriberCount", PStr (py "10"));
                  ("viewCount", PStr (py "2000"))]%string)
           (PStr (py "Channel")) (PStr (py "About")) (PStr (py "10"))
           (PStr (py "2000")) []
           eq_refl eq_refl eq_refl eq_refl eq_refl eq_refl eq_refl eq_refl).
Defined.

(** X12: when the statistics of the channel lack [subscriberCount] (a
    channel that hides it), [fetch_channel_data] gives up the whole
    profile: it logs the error and returns [None], title and
    description included. *)
Theorem hidden_subscriber_count_voids_profile
  (w : World) (channel_id : pyval) (tr : trace)
  (response first snippet statistics title description : pyval)
  (rest : list pyval) (e : exn) :
  w tr (channel_request channel_id) = Return response ->
  getitem response (py "items") = Return (PList (first :: rest)) ->
  getitem first (py "snippet") = Return snippet ->
  getitem snippet (py "title") = Return title ->
  getitem snippet (py "description") = Return description ->
  getitem first (py "statistics") = Return statistics ->
  getitem statistics (py "subscriberCount") = Raise e ->
  fetch_channel_data w channel_id tr
  = (Return PNone,
     tr ++ [Called (channel_request channel_id);
            Log (py "Error fetching channel data: ") e]).
Proof.
  intros Hw Hi Hsn Ht Hd Hst Hsub.
  unfold fetch_channel_data. run_monad.
  unfold channel_request in Hw.
  feed Hw. feed Hi. first_item_steps first rest.
  feed Hsn. feed Ht. feed Hd. feed Hst. feed Hsub.
  now rewrite <- app_assoc.
Qed.

Lemma hidden_subscriber_count_voids_profile_witness :
  fetch_channel_data world_hidden (PStr (py "UC1")) []
  = (Return PNone,
     [] ++ [Called (channel_request (PStr (py "UC1")));
            Log (py "Error fetching channel data: ")
                (KeyError (PStr (py "subscriberCount")))]).
Proof.
  exact (hidden_subscriber_count_voids_profile world_hidden (PStr (py "UC1")) []
           (dict [("items", PList [channel_hidden])]%string) channel_hidden
           (dict [("title", PStr (py "Channel"));
                  ("description", PStr (py "About"))]%string)
           (dict [("viewCount", PStr (py "2000"))]%string)
           (PStr (py "Channel")) (PStr (py "About")) []
           (KeyError (PStr (py "subscriberCount")))
           eq_refl eq_refl eq_refl eq_refl eq_refl eq_refl eq_refl).
Defined.

(** X13: on a response without items both fetches return [None] after
    printing their own line ("Channel not found.", "No videos found for
    this channel."), with no diagnostic and no further call. *)
Theorem empty_result_prints_and_returns_none
  (w : World) (channel_id : pyval) (tr : trace) (response items : pyval) :
  getitem response (py "items") = Return items ->
  truthy items = false ->
  (w tr (channel_request channel_id) = Return response ->
     fetch_channel_data w channel_id tr
     = (Return PNone,
        tr ++ [Called (channel_request channel_id);
               Printed (py "Channel not found.")]))
  /\ (w tr (latest_request channel_id) = Return response ->
        fetch_latest_video_details w channel_id tr
        = (Return PNone,
           tr ++ [Called (latest_request channel_id);
                  Printed (py "No videos found for this channel.")])).
Proof.
  intros Hi Ht. split; intros Hw.
  - unfold fetch_channel_data. run_monad. unfold channel_request in Hw.
    feed Hw. feed Hi. feed Ht. now rewrite <- app_assoc.
  - unfold fetch_latest_video_details. run_monad. unfold latest_request in Hw.
    feed Hw. feed Hi. feed Ht. now rewrite <- app_assoc.
Qed.

Lemma empty_result_prints_and_returns_none_witness :
  fetch_channel_data world_empty (PStr (py "UC1")) []
  = (Return PNone,
     [] ++ [Called (channel_request (PStr (py "UC1")));
            Printed (py "Channel not found.")])
  /\ fetch_latest_video_details world_empty (PStr (py "UC1")) []
     = (Return PNone,
        [] ++ [Called (latest_request (PStr (py "UC1")));
               Printed (py "No videos found for this channel.")]).
Proof.
  destruct (empty_result_prints_and_returns_none world_empty (PStr (py "UC1")) []
              (dict [("items", PList [])]%string) (PList []) eq_refl eq_refl)
    as [C V].
  split; [exact (C eq_refl) | exact (V eq_refl)].
Defined.

(* ================================================================= *)
(** ** Latest video *)

Lemma fetch_comments_returns_list
  (w : World) (video_id : pyval) (tr tr' : trace) (o : outcome pyval) :
  fetch_comments w video_id tr = (o, tr') -> exists recs, o = Return (PList recs).
Proof.
  intros H. destruct (fetch_comments_cases w video_id tr) as (recs & t & E & _).
  rewrite E in H. injection H as <- _. now exists recs.
Qed.

(** X14: [fetch_latest_video_details] never raises; it returns [None] or
    a record with exactly the seven keys of the video record, and the
    [comments] of such a record are always a list. *)
Theorem video_record_is_none_or_complete
  (w : World) (channel_id : pyval) (tr : trace) :
  exists v tr',
    fetch_latest_video_details w channel_id tr = (Return v, tr')
    /\ (v = PNone
        \/ (keys_of v = video_keys
            /\ exists recs, getitem v (py "comments") = Return (PList recs))).
Proof.
  unfold fetch_latest_video_details. run_monad.
  split_steps; eexists _, _; (split; [reflexivity|]);
    first
      [ left; reflexivity
      | right; split; [reflexivity|];
        match goal with
        | H : fetch_comments _ _ _ = (Return ?c, _) |- _ =>
            destruct (fetch_comments_returns_list _ _ _ _ _ H) as [recs Hrecs];
            injection Hrecs as ->; exists recs; reflexivity
        end ].
Qed.

(** X15: when the newest search hit is not a video (its [id] has no
    [videoId], as for a playlist), [fetch_latest_video_details] logs the
    error and returns [None] without annotating anything or asking for
    comments: the search is its only call. *)
Theorem latest_hit_without_video_id_is_dropped
  (w : World) (channel_id : pyval) (tr : trace)
  (response first id : pyval) (rest : list pyval) (e : exn) :
  w tr (latest_request channel_id) = Return response ->
  getitem response (py "items") = Return (PList (first :: rest)) ->
  getitem first (py "id") = Return id ->
  getitem id (py "videoId") = Raise e ->
  fetch_latest_video_details w channel_id tr
  = (Return PNone,
     tr ++ [Called (latest_request channel_id);
            Log (py "Error fetching latest video details: ") e]).
Proof.
  intros Hw Hi Hid Hvid.
  unfold fetch_latest_video_details. run_monad. unfold latest_request in Hw.
  feed Hw. feed Hi. first_item_steps first rest. feed Hid. feed Hvid.
  now rewrite <- app_assoc.
Qed.

Lemma latest_hit_without_video_id_is_dropped_witness :
  fetch_latest_video_details world_playlist (PStr (py "UC1")) []
  = (Return PNone,
     [] ++ [Called (latest_request (PStr (py "UC1")));
            Log (py "Error fetching latest video details: ")
                (KeyError (PStr (py "videoId")))]).
Proof.
  exact (latest_hit_without_video_id_is_dropped world_playlist
           (PStr (py "UC1")) []
           (dict [("items", PList [playlist_hit])]%string) playlist_hit
           (dict [("kind", PStr (py "youtube#playlist"));
                  ("playlistId", PStr (py "PL1"))]%string) []
           (KeyError (PStr (py "videoId")))
           eq_refl eq_refl eq_refl eq_refl).
Defined.

(* ================================================================= *)
(** ** Comments: failures and calls *)

Section CommentCalls.

Variable w : World.

(** A thread the loop cannot read stops it, wherever it stands. *)
Lemma comments_loop_raises (items : list pyval) :
  Exists (fun c => ~ readable_thread c) items ->
  forall acc tr, exists e tr', comments_loop w items acc tr = (Raise e, tr').
Proof.
  induction items as [|comment rest IH]; intros Hex acc tr.
  - inversion Hex.
  - cbn [comments_loop]. unfold lift.
    destruct (top_level_field comment "authorDisplayName") as [author|e] eqn:Ha;
      [|now exists e, tr].
    rewrite (bind_return _ _ tr tr author eq_refl).
    destruct (top_level_field comment "textDisplay") as [text|e] eqn:Ht;
      [|now exists e, tr].
    rewrite (bind_return _ _ tr tr text eq_refl).
    destruct (summarize_text_total w text tr) as (sm & t1 & Hs).
    rewrite (bind_return _ _ _ _ _ Hs).
    destruct (analyze_sentiment_total w text t1) as (st & t2 & Hst).
    rewrite (bind_return _ _ _ _ _ Hst).
    apply IH. inversion Hex as [? ? Hbad | ? ? Hlater]; [|exact Hlater].
    exfalso. apply Hbad. now exists author, text.
Qed.

Lemma summarize_text_calls (text : pyval) (tr : trace) :
  exists v tr',
    summarize_text w text tr = (Return v, tr')
    /\ calls tr' = calls tr ++ [summarizer_request text].
Proof.
  unfold summarize_text. run_monad.
  split_steps; eexists _, _; (split; [reflexivity | count_calls]).
Qed.

Lemma analyze_sentiment_calls (text : pyval) (tr : trace) :
  exists v tr',
    analyze_sentiment w text tr = (Return v, tr')
    /\ calls tr' = calls tr ++ [SentimentAnalyzer text].
Proof.
  unfold analyze_sentiment. run_monad.
  split_steps; eexists _, _; (split; [reflexivity | count_calls]).
Qed.

(** The loop sends each text to the summarizer, then to the sentiment
    model, thread after thread. *)
Lemma comments_loop_calls (items : list pyval) :
  Forall readable_thread items ->
  forall acc tr, exists l tr',
    comments_loop w items acc tr = (Return l, tr')
    /\ calls tr' = calls tr ++ flat_map annotation_requests items.
Proof.
  induction 1 as [|comment rest (author & text & Ha & Ht) _ IH]; intros acc tr.
  - exists acc, tr. split; [reflexivity | now rewrite app_nil_r].
  - cbn [comments_loop flat_map]. unfold lift, annotation_requests at 1.
    rewrite Ha, Ht.
    rewrite (bind_return _ _ tr tr author eq_refl).
    rewrite (bind_return _ _ tr tr text eq_refl).
    destruct (summarize_text_calls text tr) as (sm & t1 & Hs & C1).
    rewrite (bind_return _ _ _ _ _ Hs).
    destruct (analyze_sentiment_calls text t1) as (st & t2 & Hst & C2).
    rewrite (bind_return _ _ _ _ _ Hst).
    destruct (IH (acc ++ [comment_record author text sm st]) t2)
      as (l & tr' & E & C).
    exists l, tr'. split; [exact E|].
    rewrite C, C2, C1. now rewrite <- !app_assoc.
Qed.

End CommentCalls.

(** X16: one thread whose author or text cannot be read voids the whole
    result: [fetch_comments] returns the empty list, the records of the
    threads before it included. *)
Theorem unreadable_thread_voids_all_comments
  (w : World) (video_id : pyval) (tr : trace) (response : pyval)
  (items : list pyval) :
  w tr (comment_threads_request video_id 5) = Return response ->
  getitem response (py "items") = Return (PList items) ->
  Exists (fun c => ~ readable_thread c) items ->
  fst (fetch_comments w video_id tr) = Return (PList []).
Proof.
  intros Hw Hi Hex. rewrite fetch_comments_eq, Hw, Hi. cbv zeta.
  assert (truthy (PList items) = true) as ->
    by (destruct items; [inversion Hex | reflexivity]).
  cbn [iterate].
  destruct (comments_loop_raises w items Hex []
              (tr ++ [Called (comment_threads_request video_id 5)]))
    as (e & tr' & ->).
  reflexivity.
Qed.

Lemma unreadable_thread_voids_all_comments_witness :
  fst (fetch_comments world_broken_thread (PStr (py "vid1")) [])
  = Return (PList []).
Proof.
  refine (unreadable_thread_voids_all_comments world_broken_thread
            (PStr (py "vid1")) []
            (dict [("items", PList [thread "ann" "one"; PStr (py "oops")])]%string)
            [thread "ann" "one"; PStr (py "oops")] eq_refl eq_refl _).
  apply Exists_cons_tl, Exists_cons_hd.
  intros (author & text & Ha & _). discriminate Ha.
Defined.

(** X17: on a non-empty list of readable threads [fetch_comments] makes
    its calls in this order and no others: the comment query, then for
    each thread in turn the summarizer and the sentiment model on the
    text of that thread. *)
Theorem comments_are_annotated_once_in_order
  (w : World) (video_id : pyval) (tr : trace) (response : pyval)
  (items : list pyval) :
  w tr (comment_threads_request video_id 5) = Return response ->
  getitem response (py "items") = Return (PList items) ->
  items <> [] ->
  Forall readable_thread items ->
  exists recs tr',
    fetch_comments w video_id tr = (Return (PList recs), tr')
    /\ calls tr'
       = calls tr
         ++ comment_threads_request video_id 5
         :: flat_map annotation_requests items
    /\ length (calls tr') = length (calls tr) + 1 + 2 * length items.
Proof.
  intros Hw Hi Hne Hread. rewrite fetch_comments_eq, Hw, Hi. cbv zeta.
  assert (truthy (PList items) = true) as ->
    by (destruct items; [now destruct Hne | reflexivity]).
  cbn [iterate].
  destruct (comments_loop_calls w items Hread []
              (tr ++ [Called (comment_threads_request video_id 5)]))
    as (l & tr' & -> & C).
  exists l, tr'. split; [reflexivity|].
  assert (calls tr'
          = calls tr ++ comment_threads_request video_id 5
                     :: flat_map annotation_requests items) as C'.
  { rewrite C, calls_app. simpl. now rewrite <- app_assoc. }
  split; [exact C'|]. rewrite C', length_app. simpl.
  assert (length (flat_map annotation_requests items) = 2 * length items) as ->.
  { clear - Hread. induction Hread as [|c rest (a & t & _ & Ht) _ IH];
      [reflexivity|].
    cbn [flat_map]. rewrite length_app, IH. unfold annotation_requests.
    rewrite Ht. simpl. lia. }
  lia.
Qed.

Lemma comments_are_annotated_once_in_order_witness :
  exists recs tr',
    fetch_comments world_ok (PStr (py "vid1")) [] = (Return (PList recs), tr')
    /\ calls tr'
       = [comment_threads_request (PStr (py "vid1")) 5;
          summarizer_request (PStr (py "one")); SentimentAnalyzer (PStr (py "one"));
          summarizer_request (PStr (py "two")); SentimentAnalyzer (PStr (py "two"))]
    /\ length (calls tr') = 5.
Proof.
  assert (Forall readable_thread two_threads) as R
    by (repeat constructor; apply thread_readable).
  destruct (comments_are_annotated_once_in_order world_ok (PStr (py "vid1")) []
              (dict [("items", PList two_threads)]%string) two_threads
              eq_refl eq_refl ltac:(discriminate) R)
    as (recs & tr' & E & C & L).
  exists recs, tr'. split; [exact E|]. split; [exact C | exact L].
Defined.

(* ================================================================= *)
(** ** End to end *)

(** X18: on a search hit with a video id, a title, a description and a
    date, [fetch_latest_video_details] summarizes the description, then
    classifies it, then fetches the comments of that video id, and
    returns the record made of the four values of the hit and of these
    three results. *)
Theorem video_record_is_built_from_first_hit
  (w : World) (channel_id : pyval) (tr : trace)
  (response first id video_id snippet title description published_at : pyval)
  (rest : list pyval) :
  w tr (latest_request channel_id) = Return response ->
  getitem response (py "items") = Return (PList (first :: rest)) ->
  getitem first (py "id") = Return id ->
  getitem id (py "videoId") = Return video_id ->
  getitem first (py "snippet") = Return snippet ->
  getitem snippet (py "title") = Return title ->
  getitem snippet (py "description") = Return description ->
  getitem snippet (py "publishedAt") = Return published_at ->
  exists summarized_description t1 sentiment t2 comments t3,
    summarize_text w description (tr ++ [Called (latest_request channel_id)])
    = (Return summarized_description, t1)
    /\ analyze_sentiment w description t1 = (Return sentiment, t2)
    /\ fetch_comments w video_id t2 = (Return (PList comments), t3)
    /\ fetch_latest_video_details w channel_id tr
       = (Return (dict [("video_id", video_id); ("title", title);
                        ("description", description);
                        ("published_at", published_at);
                        ("summarized_description", summarized_description);
                        ("sentiment", sentiment);
                        ("comments", PList comments)]%string), t3).
Proof.
  intros Hw Hi Hid Hvid Hsn Ht Hd Hp.
  destruct (summarize_text_total w description
              (tr ++ [Called (latest_request channel_id)])) as (sm & t1 & Hs).
  destruct (analyze_sentiment_total w description t1) as (st & t2 & Hst).
  destruct (fetch_comments_cases w video_id t2) as (recs & t3 & Hc & _).
  exists sm, t1, st, t2, recs, t3.
  split; [exact Hs|]. split; [exact Hst|]. split; [exact Hc|].
  unfold fetch_latest_video_details. run_monad.
  unfold latest_request in Hw, Hs.
  feed Hw. feed Hi. first_item_steps first rest.
  feed Hid. feed Hvid. feed Hsn. feed Ht. feed Hd. feed Hp.
  feed Hs. feed Hst. feed Hc. reflexivity.
Qed.

Lemma video_record_is_built_from_first_hit_witness :
  exists summarized_description t1 sentiment t2 comments t3,
    summarize_text world_ok (PStr (py "A long description"))
      ([] ++ [Called (latest_request (PStr (py "UC1")))])
    = (Return summarized_description, t1)
    /\ analyze_sentiment world_ok (PStr (py "A long description")) t1
       = (Return sentiment, t2)
    /\ fetch_comments world_ok (PStr (py "vid1")) t2 = (Return (PList comments), t3)
    /\ fetch_latest_video_details world_ok (PStr (py "UC1")) []
       = (Return (dict [("video_id", PStr (py "vid1"));
                        ("title", PStr (py "Latest"));
                        ("description", PStr (py "A long description"));
                        ("published_at", PStr (py "2024-01-01T00:00:00Z"));
                        ("summarized_description", summarized_description);
                        ("sentiment", sentiment);
                        ("comments", PList comments)]%string), t3).
Proof.
  exact (video_record_is_built_from_first_hit world_ok (PStr (py "UC1")) []
           (dict [("items", PList [video_hit])]%string) video_hit
           (dict [("kind", PStr (py "youtube#video"));
                  ("videoId", PStr (py "vid1"))]%string)
           (PStr (py "vid1"))
           (dict [("channelId", PStr (py "UC1"));
                  ("title", PStr (py "Latest"));
                  ("description", PStr (py "A long description"));
                  ("publishedAt", PStr (py "2024-01-01T00:00:00Z"))]%string)
           (PStr (py "Latest")) (PStr (py "A long description"))
           (PStr (py "2024-01-01T00:00:00Z")) []
           eq_refl eq_refl eq_refl eq_refl eq_refl eq_refl eq_refl eq_refl).
Defined.

(** X19: a well-formed video URL whose video the platform does not know
    (the query raises, or comes back without items) ends on the same
    error page as a malformed URL: [index] renders [index.html] with
    "Invalid YouTube URL" after the one lookup call. *)
Theorem unknown_video_gets_the_error_page
  (w : World) (url : str) (form : list (str * str)) (tr : trace) :
  form_get form (py "url") = Return url ->
  contains watch_marker url = true ->
  let request := videos_request (PStr (video_key url)) in
  let page :=
    render_template (py "index.html")
      [(py "error", PStr (py "Invalid YouTube URL"))] in
  (forall e,
     w tr request = Raise e ->
     index w (py "POST") form tr
     = (Return page,
        tr ++ [Called request;
               Log (py "Error fetching channel ID from video: ") e]))
  /\ (forall response,
        w tr request = Return response ->
        getitem response (py "items") = Return (PList []) ->
        index w (py "POST") form tr = (Return page, tr ++ [Called request])).
Proof.
  intros Hform Hwatch request page. split.
  - intros e Hw. rewrite (index_post w form url tr Hform).
    unfold bind at 1. rewrite (resolve_on_watch w url tr Hwatch).
    unfold get_channel_from_video. run_monad.
    fold request. feed Hw. now rewrite <- app_assoc.
  - intros response Hw Hi. rewrite (index_post w form url tr Hform).
    unfold bind at 1. rewrite (resolve_on_watch w url tr Hwatch).
    unfold get_channel_from_video. run_monad.
    fold request. feed Hw. feed Hi. reflexivity.
Qed.

Lemma unknown_video_gets_the_error_page_witness :
  index world_down (py "POST") [(py "url", url_watch)] []
  = (Return (render_template (py "index.html")
               [(py "error", PStr (py "Invalid YouTube URL"))]),
     [] ++ [Called (videos_request (PStr (video_key url_watch)));
            Log (py "Error fetching channel ID from video: ")
                (ExternalError (py "quota exceeded"))])
  /\ index world_empty (py "POST") [(py "url", url_watch)] []
     = (Return (render_template (py "index.html")
                  [(py "error", PStr (py "Invalid YouTube URL"))]),
        [] ++ [Called (videos_request (PStr (video_key url_watch)))]).
Proof.
  split.
  - exact (proj1 (unknown_video_gets_the_error_page world_down url_watch
                    [(py "url", url_watch)] [] eq_refl eq_refl)
             (ExternalError (py "quota exceeded")) eq_refl).
  - exact (proj2 (unknown_video_gets_the_error_page world_empty url_watch
                    [(py "url", url_watch)] [] eq_refl eq_refl)
             (dict [("items", PList [])]%string) eq_refl eq_refl).
Defined.
